(** * The website helper worker: request routing and error translation

    A shallow embedding of [packages/website-helper-worker/src/index.ts],
    the Cloudflare worker that forwards contact-form submissions to Notion
    and Crisp and reports failures to Sentry.

    The worker's [fetch] is embedded as a computation in a small monad that
    threads the state of the outside world and a log of the calls made to the
    collaborators, and that completes either normally or by throwing.  The
    modules the worker imports ([./contact-conductor], [./contact-guild],
    [./cors], [./crisp-client], [toucan-js], [@notionhq/client]) are not
    part of the embedded file: they are the fields of the class
    [Collaborators].  The pieces of the JavaScript platform that the worker
    uses ([JSON.stringify], [Headers], [Response], [URL]) are modelled as far
    as [fetch] exercises them. *)

From Stdlib Require Import String Ascii List ZArith Bool Lia.
Import ListNotations.

Local Open Scope string_scope.
Local Open Scope Z_scope.

(** ** Strings of the platform *)

Module Js.

(** The double quote and the backslash, which the string escaping of JSON
    needs. *)
Definition dquote : ascii := "034"%char.
Definition backslash : ascii := "092"%char.

Definition is_char (c d : ascii) : bool := Ascii.eqb c d.

(** ASCII lower-casing of one byte, as header names are compared. *)
Definition lower_char (c : ascii) : ascii :=
  let n := nat_of_ascii c in
  if (Nat.leb 65 n && Nat.leb n 90)%bool then ascii_of_nat (n + 32) else c.

Fixpoint toLowerCase (s : string) : string :=
  match s with
  | EmptyString => EmptyString
  | String c r => String (lower_char c) (toLowerCase r)
  end.

(** [take_until stop s] splits [s] in front of its first character
    satisfying [stop]. *)
Fixpoint take_until (stop : ascii -> bool) (s : string) : string * string :=
  match s with
  | EmptyString => (EmptyString, EmptyString)
  | String c r =>
      if stop c then (EmptyString, s)
      else let (a, b) := take_until stop r in (String c a, b)
  end.

(** [s] has no character satisfying [stop]. *)
Fixpoint free_of (stop : ascii -> bool) (s : string) : bool :=
  match s with
  | EmptyString => true
  | String c r => negb (stop c) && free_of stop r
  end.

Definition join (sep : string) (parts : list string) : string :=
  String.concat sep parts.

(** *** Values that can be thrown

    The catch clause of [fetch] only reads the [message] property of what
    it caught, so thrown values are classified by what that read yields. *)
Inductive Thrown : Type :=
| ErrorWith (message : string)  (* an Error, or any object with a string [message] *)
| NoMessage                     (* a value without [message]: a string, a number, a plain object *)
| ThrownNull                    (* [throw null] *)
| ThrownUndefined.              (* [throw undefined], a promise rejected with no reason *)

(** A computation step completes normally or throws. *)
Inductive Completion (A : Type) : Type :=
| Normal (a : A)
| Throw (e : Thrown).
Arguments Normal {A} a.
Arguments Throw {A} e.

(** A property value inside an object literal: a string or [undefined]. *)
Inductive Prop_value : Type :=
| Undefined
| Str (s : string).

(** [e.message]: reading a property of [null] or [undefined] throws a
    TypeError (the text is V8's); any other value without the property
    yields [undefined]. *)
Definition get_message (e : Thrown) : Completion Prop_value :=
  match e with
  | ErrorWith m => Normal (Str m)
  | NoMessage => Normal Undefined
  | ThrownNull =>
      Throw (ErrorWith "Cannot read properties of null (reading 'message')")
  | ThrownUndefined =>
      Throw (ErrorWith "Cannot read properties of undefined (reading 'message')")
  end.

End Js.

Export Js (Thrown (..), Completion (..), Prop_value (..)).

(** ** [JSON.stringify] on flat objects with string properties *)

Module JSON.

Definition hex_digit (n : nat) : ascii :=
  if Nat.ltb n 10 then ascii_of_nat (48 + n) else ascii_of_nat (87 + n).

(** The escape of one character inside a JSON string (QuoteJSONString):
    the quote, the backslash and the control characters are escaped,
    everything else is copied. *)
Definition escape_char (c : ascii) : string :=
  let n := nat_of_ascii c in
  if Js.is_char c Js.dquote then String Js.backslash (String Js.dquote "")
  else if Js.is_char c Js.backslash then String Js.backslash (String Js.backslash "")
  else if Nat.eqb n 8 then String Js.backslash "b"
  else if Nat.eqb n 9 then String Js.backslash "t"
  else if Nat.eqb n 10 then String Js.backslash "n"
  else if Nat.eqb n 12 then String Js.backslash "f"
  else if Nat.eqb n 13 then String Js.backslash "r"
  else if Nat.ltb n 32 then
    String Js.backslash
      ("u00" ++ String (hex_digit (Nat.div n 16)) (String (hex_digit (Nat.modulo n 16)) ""))
  else String c "".

Fixpoint escape (s : string) : string :=
  match s with
  | EmptyString => EmptyString
  | String c r => escape_char c ++ escape r
  end.

Definition quote (s : string) : string :=
  String Js.dquote (escape s ++ String Js.dquote "").

(** One property of an object: a property whose value is [undefined] is
    left out of the output. *)
Definition member (kv : string * Prop_value) : list string :=
  match snd kv with
  | Undefined => []
  | Str s => [quote (fst kv) ++ ":" ++ quote s]
  end.

Definition stringify (obj : list (string * Prop_value)) : string :=
  "{" ++ Js.join "," (flat_map member obj) ++ "}".

End JSON.

(** ** Objects, headers, responses, URLs and requests of the platform *)

(** A plain object with string properties, in insertion order. *)
Module Obj.

Definition t : Type := list (string * string).

(** [{ ...o, key: value }]: an existing property keeps its place and takes
    the new value, a new property goes last. *)
Fixpoint set (o : t) (key value : string) : t :=
  match o with
  | [] => [(key, value)]
  | (k, v) :: r =>
      if String.eqb k key then (k, value) :: r else (k, v) :: set r key value
  end.

End Obj.

(** A header list.  Names keep the spelling they were given; look-up ignores
    ASCII case and joins the values of a repeated name. *)
Module Headers.

Definition t : Type := list (string * string).

Definition same_name (a b : string) : bool :=
  String.eqb (Js.toLowerCase a) (Js.toLowerCase b).

Definition values (hs : t) (name : string) : list string :=
  map snd (filter (fun kv => same_name (fst kv) name) hs).

Definition has (hs : t) (name : string) : bool :=
  existsb (fun kv => same_name (fst kv) name) hs.

Definition get (hs : t) (name : string) : option string :=
  if has hs name then Some (Js.join ", " (values hs name)) else None.

(** Every header of the object [o] is carried by [hs], name and value. *)
Definition carries (hs : t) (o : Obj.t) : Prop :=
  forall name value, In (name, value) o -> In (name, value) hs.

End Headers.

Module Response.

Record t : Type := mk {
  status : Z;
  headers : Headers.t;
  body : option string
}.

(** The second argument of the constructor; both members are optional. *)
Record Init : Type := init {
  init_status : option Z;
  init_headers : option Obj.t
}.

Definition text_plain : string := "text/plain;charset=UTF-8".

(** [new Response(body, init)].  The status defaults to 200; the headers
    are filled from the object in order; a string body whose response has
    no Content-Type header yet gets the one of its kind, text/plain.  The
    statuses used by the worker (default, 404, 500) are in the range the
    constructor accepts, and the header names it is given are taken to be
    valid, so the constructor does not throw. *)
Definition new (body : option string) (i : Init) : t :=
  let status := match init_status i with Some s => s | None => 200 end in
  let filled := match init_headers i with Some o => o | None => [] end in
  let headers :=
    match body with
    | Some _ =>
        if Headers.has filled "Content-Type" then filled
        else (filled ++ [("Content-Type", text_plain)])%list
    | None => filled
    end in
  mk status headers body.

(** [response.ok]: the status is in the range 200 to 299. *)
Definition ok (r : t) : bool := (200 <=? status r) && (status r <=? 299).

End Response.

Module URL.

Record t : Type := mk {
  protocol : string;
  host : string;
  pathname : string;
  search : string;
  hash : string
}.

Definition path_end (c : ascii) : bool :=
  Js.is_char c "?" || Js.is_char c "#".

Definition host_end (c : ascii) : bool :=
  Js.is_char c "/" || path_end c.

Definition invalid : Thrown := ErrorWith "Invalid URL".

(** [new URL(href)] on the serialisation of a hierarchical URL, which is
    what [request.url] holds: the scheme up to [://], the host up to the
    path, the path up to the query, the query up to the fragment.  An
    empty path reads as [/]; a lone [?] or [#] reads as empty. *)
Definition new (href : string) : Completion t :=
  let (scheme, r0) := Js.take_until (fun c => Js.is_char c ":") href in
  match scheme, r0 with
  | String _ _, String _ (String "/" (String "/" r1)) =>
      let (h, r2) := Js.take_until host_end r1 in
      let (p, r3) := Js.take_until path_end r2 in
      let (q, r4) := Js.take_until (fun c => Js.is_char c "#") r3 in
      Normal (mk (scheme ++ ":") h
                 (if String.eqb p "" then "/" else p)
                 (if String.eqb q "?" then "" else q)
                 (if String.eqb r4 "#" then "" else r4))
  | _, _ => Throw invalid
  end.

(** [url.href], the serialisation. *)
Definition href (u : t) : string :=
  protocol u ++ "//" ++ host u ++ pathname u ++ search u ++ hash u.

Definition starts_with (c : ascii) (s : string) : bool :=
  match s with
  | String d _ => Js.is_char d c
  | EmptyString => false
  end.

(** [part] is empty, or starts with [c] and has more than that. *)
Definition optional (c : ascii) (part : string) : bool :=
  String.eqb part ""
  || (starts_with c part && negb (String.eqb part (String c ""))).

(** The components of a serialised URL: a scheme with its colon, a host
    that stops at the path, a path that starts with a slash and stops at
    the query, a query that stops at the fragment. *)
Definition wf (u : t) : bool :=
  (let (scheme, colon) := Js.take_until (fun c => Js.is_char c ":") (protocol u) in
   negb (String.eqb scheme "") && String.eqb colon ":")
  && Js.free_of host_end (host u)
  && starts_with "/" (pathname u) && Js.free_of path_end (pathname u)
  && optional "?" (search u) && Js.free_of (fun c => Js.is_char c "#") (search u)
  && optional "#" (hash u).

End URL.

Module Request.

Record t : Type := mk {
  method : string;
  url : string;
  headers : Headers.t;
  body : option string
}.

End Request.

(** ** The worker's environment and the arguments of its collaborators *)

(** The bindings of the worker that [fetch] reads.  A binding that is not
    configured reads as [undefined], here [None]. *)
Module Env.

Record t : Type := mk {
  SENTRY_DSN : option string;
  CRISP_TOKEN : option string;
  CRISP_WEBSITE_ID : option string;
  NOTION_TOKEN : option string;
  NOTION_CONDUCTOR_DATABASE_ID : option string;
  NOTION_CONTACT_US_DATABASE_ID : option string
}.

End Env.

Module ToucanOptions.
Record t (Context : Type) : Type := mk {
  dsn : option string;
  context : Context;
  request : Request.t
}.
Arguments mk {Context} _ _ _.
Arguments dsn {Context} _.
Arguments context {Context} _.
Arguments request {Context} _.
End ToucanOptions.

Module CrispOptions.
Record t : Type := mk {
  token : option string;
  websiteId : option string
}.
End CrispOptions.

Module ClientOptions.
Record t : Type := mk {
  auth : option string
}.
End ClientOptions.

Module ConductorArgs.
Record t (Notion : Type) : Type := mk {
  request : Request.t;
  notion : Notion;
  notionDatabaseId : option string
}.
Arguments mk {Notion} _ _ _.
Arguments request {Notion} _.
Arguments notion {Notion} _.
Arguments notionDatabaseId {Notion} _.
End ConductorArgs.

Module ContactUsArgs.
Record t (Crisp Notion : Type) : Type := mk {
  request : Request.t;
  crisp : Crisp;
  notion : Notion;
  notionDatabaseId : option string
}.
Arguments mk {Crisp Notion} _ _ _ _.
Arguments request {Crisp Notion} _.
Arguments crisp {Crisp Notion} _.
Arguments notion {Crisp Notion} _.
Arguments notionDatabaseId {Crisp Notion} _.
End ContactUsArgs.

(** ** The collaborators

    Everything [fetch] imports.  A collaborator that talks to the outside
    reads and changes the [World]; the constructors and the two route
    handlers may throw (a rejected promise of an awaited handler is a throw
    at the [await]).  [captureException] hands the error to the collector
    and returns at once, and [buildResponseCorsHeaders] computes a header
    object from the request's headers; both are taken to return normally. *)
Class Collaborators : Type := {
  World : Type;
  ExecutionContext : Type;
  Sentry : Type;
  Crisp : Type;
  Notion : Type;
  new_Toucan_impl :
    ToucanOptions.t ExecutionContext -> World -> Completion Sentry * World;
  captureException_impl : Sentry -> Thrown -> World -> World;
  createCrispClient_impl :
    CrispOptions.t -> World -> Completion Crisp * World;
  new_Client_impl :
    ClientOptions.t -> World -> Completion Notion * World;
  buildResponseCorsHeaders : Headers.t -> Obj.t;
  handleConductorContact_impl :
    ConductorArgs.t Notion -> World -> Completion Response.t * World;
  handleContactUs_impl :
    ContactUsArgs.t Crisp Notion -> World -> Completion Response.t * World
}.

(** The calls to collaborators that one invocation can make. *)
Inductive Event {C : Collaborators} : Type :=
| NewToucan (o : ToucanOptions.t ExecutionContext)
| CreateCrispClient (o : CrispOptions.t)
| NewClient (o : ClientOptions.t)
| HandleConductorContact (a : ConductorArgs.t Notion)
| HandleContactUs (a : ContactUsArgs.t Crisp Notion)
| CaptureException (s : Sentry) (e : Thrown).

Definition is_handler {C : Collaborators} (ev : Event) : bool :=
  match ev with
  | HandleConductorContact _ | HandleContactUs _ => true
  | _ => false
  end.

Definition is_client_construction {C : Collaborators} (ev : Event) : bool :=
  match ev with
  | CreateCrispClient _ | NewClient _ => true
  | _ => false
  end.

(** The collaborator that a call goes to. *)
Inductive Collaborator : Type :=
| Toucan
| CrispClient
| NotionClient
| ConductorHandler
| ContactUsHandler
| Collector.

Definition callee {C : Collaborators} (ev : Event) : Collaborator :=
  match ev with
  | NewToucan _ => Toucan
  | CreateCrispClient _ => CrispClient
  | NewClient _ => NotionClient
  | HandleConductorContact _ => ConductorHandler
  | HandleContactUs _ => ContactUsHandler
  | CaptureException _ _ => Collector
  end.




(** ** The monad of the worker: world, call log and exceptions *)

Section Monad.

Context {C : Collaborators}.

Record State : Type := mkState {
  world : World;
  log : list Event
}.

Definition M (A : Type) : Type := State -> Completion A * State.

Definition ret {A} (a : A) : M A := fun st => (Normal a, st).

Definition bind {A B} (m : M A) (k : A -> M B) : M B :=
  fun st =>
    match m st with
    | (Normal a, st') => k a st'
    | (Throw e, st') => (Throw e, st')
    end.

(** [try { m } catch (e) { h e }] *)
Definition try_catch {A} (m : M A) (h : Thrown -> M A) : M A :=
  fun st =>
    match m st with
    | (Normal a, st') => (Normal a, st')
    | (Throw e, st') => h e st'
    end.

(** A step of the platform that touches neither world nor log. *)
Definition lift {A} (c : Completion A) : M A := fun st => (c, st).

(** A call to a collaborator: it is logged, then run on the world. *)
Definition call {A} (ev : Event) (f : World -> Completion A * World) : M A :=
  fun st =>
    let (c, w) := f (world st) in
    (c, mkState w (log st ++ [ev])%list).

End Monad.

Declare Scope worker_scope.
Delimit Scope worker_scope with worker.
Notation "x <- m ;; k" := (bind m (fun x => k))
  (at level 61, m at next level, right associativity) : worker_scope.
Notation "m ;;; k" := (bind m (fun _ => k))
  (at level 61, right associativity) : worker_scope.

(** ** The worker *)

Section Worker.

Context {C : Collaborators}.
Local Open Scope worker_scope.

(** The calls of [fetch] to its collaborators, as logged steps. *)

Definition new_Toucan (o : ToucanOptions.t ExecutionContext) : M Sentry :=
  call (NewToucan o) (new_Toucan_impl o).

Definition captureException (sentry : Sentry) (e : Thrown) : M unit :=
  call (CaptureException sentry e)
       (fun w => (Normal tt, captureException_impl sentry e w)).

Definition createCrispClient (o : CrispOptions.t) : M Crisp :=
  call (CreateCrispClient o) (createCrispClient_impl o).

Definition new_Client (o : ClientOptions.t) : M Notion :=
  call (NewClient o) (new_Client_impl o).

Definition handleConductorContact (a : ConductorArgs.t Notion) : M Response.t :=
  call (HandleConductorContact a) (handleConductorContact_impl a).

Definition handleContactUs (a : ContactUsArgs.t Crisp Notion) : M Response.t :=
  call (HandleContactUs a) (handleContactUs_impl a).

(** The body of the [try] block of [fetch]. *)
Definition fetch_try (request : Request.t) (env : Env.t) : M Response.t :=
  url <- lift (URL.new (Request.url request)) ;;
  crisp <- createCrispClient
             (CrispOptions.mk (Env.CRISP_TOKEN env) (Env.CRISP_WEBSITE_ID env)) ;;
  notion <- new_Client (ClientOptions.mk (Env.NOTION_TOKEN env)) ;;
  if String.eqb (Request.method request) "OPTIONS" then
    ret (Response.new None
           (Response.init None
              (Some (buildResponseCorsHeaders (Request.headers request)))))
  else if String.eqb (Request.method request) "POST"
          && String.eqb (URL.pathname url) "/api/conductor" then
    handleConductorContact
      (ConductorArgs.mk request notion (Env.NOTION_CONDUCTOR_DATABASE_ID env))
  else if String.eqb (Request.method request) "POST"
          && String.eqb (URL.pathname url) "/api/contact-us" then
    handleContactUs
      (ContactUsArgs.mk request crisp notion
         (Env.NOTION_CONTACT_US_DATABASE_ID env))
  else
    ret (Response.new
           (Some (JSON.stringify [("error", Str "not found")]))
           (Response.init (Some 404)
              (Some (Obj.set (buildResponseCorsHeaders (Request.headers request))
                             "contentType" "application/json")))).

(** The [catch (e)] clause of [fetch]. *)
Definition fetch_catch (sentry : Sentry) (e : Thrown) : M Response.t :=
  captureException sentry e ;;;
  message <- lift (Js.get_message e) ;;
  ret (Response.new
         (Some (JSON.stringify [("error", message)]))
         (Response.init (Some 500) None)).

Definition fetch (request : Request.t) (env : Env.t)
    (context : ExecutionContext) : M Response.t :=
  sentry <- new_Toucan (ToucanOptions.mk (Env.SENTRY_DSN env) context request) ;;
  try_catch (fetch_try request env) (fetch_catch sentry).

(** What one invocation adds to the log. *)
Definition calls_of {A} (m : M A) (st : State) : list Event :=
  skipn (length (log st)) (log (snd (m st))).

End Worker.

(** ** Stub collaborators

    Collaborators with scripted answers, for running the worker on concrete
    requests.  Their world counts the calls made to the outside. *)

Module Stub.

Definition count (A : Type) (c : Completion A) (w : nat) : Completion A * nat :=
  (c, S w).
Arguments count {A} c w.

(** The CORS headers of the stub: the request's origin, or any origin. *)
Definition cors (hs : Headers.t) : Obj.t :=
  [("Access-Control-Allow-Origin",
    match Headers.get hs "Origin" with Some o => o | None => "*" end);
   ("Access-Control-Allow-Methods", "POST, OPTIONS");
   ("Access-Control-Allow-Headers", "Content-Type")].

(** A Crisp client that insists on its token. *)
Definition crisp (o : CrispOptions.t) : Completion CrispOptions.t :=
  match CrispOptions.token o with
  | Some _ => Normal o
  | None => Throw (ErrorWith "Crisp token is missing")
  end.

(** Collaborators scripted by the answers of the error-reporting
    constructor and of the two route handlers. *)
Definition scripted (toucan : Completion unit)
    (conductor contactUs : Completion Response.t) : Collaborators :=
  {| World := nat;
     ExecutionContext := unit;
     Sentry := unit;
     Crisp := CrispOptions.t;
     Notion := ClientOptions.t;
     new_Toucan_impl := fun _ => count toucan;
     captureException_impl := fun _ _ w => S w;
     createCrispClient_impl := fun o => count (crisp o);
     new_Client_impl := fun o => count (Normal o);
     buildResponseCorsHeaders := cors;
     handleConductorContact_impl := fun _ => count conductor;
     handleContactUs_impl := fun _ => count contactUs |}.

Definition created : Response.t :=
  Response.mk 201 [("Access-Control-Allow-Origin", "*")] (Some "{}").

(** Everything succeeds. *)
Definition healthy : Collaborators :=
  scripted (Normal tt) (Normal created) (Normal created).

Definition env : Env.t :=
  Env.mk (Some "https://key@sentry.example/1") (Some "crisp-token")
         (Some "crisp-site") (Some "notion-token")
         (Some "conductor-db") (Some "contact-us-db").

Definition request (method url : string) : Request.t :=
  Request.mk method url [("Origin", "https://the-guild.dev")] (Some "{}").

Definition start (C : Collaborators) (w : @World C) : @State C :=
  mkState w [].

(** The conductor handler throws [e]; everything else succeeds. *)
Definition conductor_throws (e : Thrown) : Collaborators :=
  scripted (Normal tt) (Throw e) (Normal created).

(** The error-reporting context cannot be constructed. *)
Definition without_sentry : Collaborators :=
  scripted (Throw (ErrorWith "Invalid Sentry DSN")) (Normal created) (Normal created).

(** An environment in which the Crisp token is not configured. *)
Definition env_without_crisp_token : Env.t :=
  Env.mk (Some "https://key@sentry.example/1") None
         (Some "crisp-site") (Some "notion-token")
         (Some "conductor-db") (Some "contact-us-db").

Definition conductor_url : string := "https://the-guild.dev/api/conductor".
Definition contact_us_url : string := "https://the-guild.dev/api/contact-us".

End Stub.

(** ** Vocabulary of the statements *)

Section Vocabulary.

Context {C : Collaborators}.
Local Open Scope worker_scope.

(** The steps of the [try] block in front of the method test: the URL is
    parsed and the two clients are constructed. *)
Definition clients (request : Request.t) (env : Env.t)
    : M (URL.t * Crisp * Notion) :=
  url <- lift (URL.new (Request.url request)) ;;
  crisp <- createCrispClient
             (CrispOptions.mk (Env.CRISP_TOKEN env) (Env.CRISP_WEBSITE_ID env)) ;;
  notion <- new_Client (ClientOptions.mk (Env.NOTION_TOKEN env)) ;;
  ret (url, crisp, notion).

Definition toucan_options (request : Request.t) (env : Env.t)
    (context : ExecutionContext) : ToucanOptions.t ExecutionContext :=
  ToucanOptions.mk (Env.SENTRY_DSN env) context request.

Definition conductor_args (request : Request.t) (env : Env.t)
    (notion : Notion) : ConductorArgs.t Notion :=
  ConductorArgs.mk request notion (Env.NOTION_CONDUCTOR_DATABASE_ID env).

Definition contact_us_args (request : Request.t) (env : Env.t)
    (crisp : Crisp) (notion : Notion) : ContactUsArgs.t Crisp Notion :=
  ContactUsArgs.mk request crisp notion (Env.NOTION_CONTACT_US_DATABASE_ID env).

(** The three responses that [fetch] builds itself. *)
Definition preflight_response (request : Request.t) : Response.t :=
  Response.new None
    (Response.init None (Some (buildResponseCorsHeaders (Request.headers request)))).

Definition not_found_response (request : Request.t) : Response.t :=
  Response.new
    (Some (JSON.stringify [("error", Str "not found")]))
    (Response.init (Some 404)
       (Some (Obj.set (buildResponseCorsHeaders (Request.headers request))
                      "contentType" "application/json"))).

Definition error_response (message : Prop_value) : Response.t :=
  Response.new (Some (JSON.stringify [("error", message)]))
               (Response.init (Some 500) None).

(** The request is for one of the two routes. *)
Definition is_conductor (request : Request.t) (url : URL.t) : bool :=
  String.eqb (Request.method request) "POST"
  && String.eqb (URL.pathname url) "/api/conductor".

Definition is_contact_us (request : Request.t) (url : URL.t) : bool :=
  String.eqb (Request.method request) "POST"
  && String.eqb (URL.pathname url) "/api/contact-us".

(** Stub collaborators "with deterministic responses": what a collaborator
    answers does not depend on the state of the world it is called in. *)
Definition deterministic : Prop :=
  (forall o w w', fst (new_Toucan_impl o w) = fst (new_Toucan_impl o w'))
  /\ (forall o w w', fst (createCrispClient_impl o w) = fst (createCrispClient_impl o w'))
  /\ (forall o w w', fst (new_Client_impl o w) = fst (new_Client_impl o w'))
  /\ (forall a w w',
        fst (handleConductorContact_impl a w) = fst (handleConductorContact_impl a w'))
  /\ (forall a w w',
        fst (handleContactUs_impl a w) = fst (handleContactUs_impl a w')).

(** The answer of a computation does not depend on the state it starts in. *)
Definition stateless {A} (m : M A) : Prop :=
  forall st st', fst (m st) = fst (m st').

End Vocabulary.

(** The bodies the specification spells out, written with explicit quotes. *)
Definition dq : string := String Js.dquote "".

Definition not_found_body : string :=
  "{" ++ dq ++ "error" ++ dq ++ ":" ++ dq ++ "not found" ++ dq ++ "}".

Definition error_body (message : string) : string :=
  "{" ++ dq ++ "error" ++ dq ++ ":" ++ JSON.quote message ++ "}".

(** ** The runs of an invocation

    Every way an invocation can go, with the calls it makes and its outcome.
    [catch_answer e] is what the catch clause answers after reporting [e]. *)

Definition catch_answer (e : Thrown) : Completion Response.t :=
  match Js.get_message e with
  | Normal v => Normal (error_response v)
  | Throw t => Throw t
  end.

Definition crisp_options (env : Env.t) : CrispOptions.t :=
  CrispOptions.mk (Env.CRISP_TOKEN env) (Env.CRISP_WEBSITE_ID env).

Definition client_options (env : Env.t) : ClientOptions.t :=
  ClientOptions.mk (Env.NOTION_TOKEN env).

Inductive Run {C : Collaborators} (request : Request.t) (env : Env.t)
    (context : ExecutionContext) (st : State)
    : list Event -> Completion Response.t -> Prop :=
| Run_no_sentry e st1 :
    new_Toucan (toucan_options request env context) st = (Throw e, st1) ->
    Run request env context st
        [NewToucan (toucan_options request env context)] (Throw e)
| Run_bad_url sentry st1 e :
    new_Toucan (toucan_options request env context) st = (Normal sentry, st1) ->
    URL.new (Request.url request) = Throw e ->
    Run request env context st
        [NewToucan (toucan_options request env context);
         CaptureException sentry e]
        (catch_answer e)
| Run_no_crisp sentry st1 url e st2 :
    new_Toucan (toucan_options request env context) st = (Normal sentry, st1) ->
    URL.new (Request.url request) = Normal url ->
    createCrispClient (crisp_options env) st1 = (Throw e, st2) ->
    Run request env context st
        [NewToucan (toucan_options request env context);
         CreateCrispClient (crisp_options env);
         CaptureException sentry e]
        (catch_answer e)
| Run_no_notion sentry st1 url crisp st2 e st3 :
    new_Toucan (toucan_options request env context) st = (Normal sentry, st1) ->
    URL.new (Request.url request) = Normal url ->
    createCrispClient (crisp_options env) st1 = (Normal crisp, st2) ->
    new_Client (client_options env) st2 = (Throw e, st3) ->
    Run request env context st
        [NewToucan (toucan_options request env context);
         CreateCrispClient (crisp_options env);
         NewClient (client_options env);
         CaptureException sentry e]
        (catch_answer e)
| Run_preflight sentry st1 url crisp notion st3 :
    new_Toucan (toucan_options request env context) st = (Normal sentry, st1) ->
    clients request env st1 = (Normal (url, crisp, notion), st3) ->
    Request.method request = "OPTIONS" ->
    Run request env context st
        [NewToucan (toucan_options request env context);
         CreateCrispClient (crisp_options env);
         NewClient (client_options env)]
        (Normal (preflight_response request))
| Run_conductor sentry st1 url crisp notion st3 r st4 :
    new_Toucan (toucan_options request env context) st = (Normal sentry, st1) ->
    clients request env st1 = (Normal (url, crisp, notion), st3) ->
    Request.method request <> "OPTIONS" ->
    is_conductor request url = true ->
    handleConductorContact (conductor_args request env notion) st3
    = (Normal r, st4) ->
    Run request env context st
        [NewToucan (toucan_options request env context);
         CreateCrispClient (crisp_options env);
         NewClient (client_options env);
         HandleConductorContact (conductor_args request env notion)]
        (Normal r)
| Run_conductor_throws sentry st1 url crisp notion st3 e st4 :
    new_Toucan (toucan_options request env context) st = (Normal sentry, st1) ->
    clients request env st1 = (Normal (url, crisp, notion), st3) ->
    Request.method request <> "OPTIONS" ->
    is_conductor request url = true ->
    handleConductorContact (conductor_args request env notion) st3
    = (Throw e, st4) ->
    Run request env context st
        [NewToucan (toucan_options request env context);
         CreateCrispClient (crisp_options env);
         NewClient (client_options env);
         HandleConductorContact (conductor_args request env notion);
         CaptureException sentry e]
        (catch_answer e)
| Run_contact_us sentry st1 url crisp notion st3 r st4 :
    new_Toucan (toucan_options request env context) st = (Normal sentry, st1) ->
    clients request env st1 = (Normal (url, crisp, notion), st3) ->
    Request.method request <> "OPTIONS" ->
    is_conductor request url = false ->
    is_contact_us request url = true ->
    handleContactUs (contact_us_args request env crisp notion) st3
    = (Normal r, st4) ->
    Run request env context st
        [NewToucan (toucan_options request env context);
         CreateCrispClient (crisp_options env);
         NewClient (client_options env);
         HandleContactUs (contact_us_args request env crisp notion)]
        (Normal r)
| Run_contact_us_throws sentry st1 url crisp notion st3 e st4 :
    new_Toucan (toucan_options request env context) st = (Normal sentry, st1) ->
    clients request env st1 = (Normal (url, crisp, notion), st3) ->
    Request.method request <> "OPTIONS" ->
    is_conductor request url = false ->
    is_contact_us request url = true ->
    handleContactUs (contact_us_args request env crisp notion) st3
    = (Throw e, st4) ->
    Run request env context st
        [NewToucan (toucan_options request env context);
         CreateCrispClient (crisp_options env);
         NewClient (client_options env);
         HandleContactUs (contact_us_args request env crisp notion);
         CaptureException sentry e]
        (catch_answer e)
| Run_not_found sentry st1 url crisp notion st3 :
    new_Toucan (toucan_options request env context) st = (Normal sentry, st1) ->
    clients request env st1 = (Normal (url, crisp, notion), st3) ->
    Request.method request <> "OPTIONS" ->
    is_conductor request url = false ->
    is_contact_us request url = false ->
    Run request env context st
        [NewToucan (toucan_options request env context);
         CreateCrispClient (crisp_options env);
         NewClient (client_options env)]
        (Normal (not_found_response request)).


(** The orders in which one invocation can call its collaborators. *)
Definition call_orders : list (list Collaborator) :=
  [ [Toucan];
    [Toucan; Collector];
    [Toucan; CrispClient; Collector];
    [Toucan; CrispClient; NotionClient; Collector];
    [Toucan; CrispClient; NotionClient];
    [Toucan; CrispClient; NotionClient; ConductorHandler];
    [Toucan; CrispClient; NotionClient; ConductorHandler; Collector];
    [Toucan; CrispClient; NotionClient; ContactUsHandler];
    [Toucan; CrispClient; NotionClient; ContactUsHandler; Collector] ].

(** ** Reading a JSON string back

    The inverse of the escaping of [JSON.stringify], as [JSON.parse] reads
    the escapes that [JSON.escape] writes. *)

Module JSON_read.

Definition unhex (c : ascii) : option nat :=
  let n := nat_of_ascii c in
  if (Nat.leb 48 n && Nat.leb n 57)%bool then Some (n - 48)%nat
  else if (Nat.leb 97 n && Nat.leb n 102)%bool then Some (n - 87)%nat
  else None.

(** The character that a two-character escape stands for. *)
Definition simple (d : ascii) : option ascii :=
  if Js.is_char d Js.dquote then Some Js.dquote
  else if Js.is_char d Js.backslash then Some Js.backslash
  else if Js.is_char d "/" then Some "/"%char
  else if Js.is_char d "b" then Some "008"%char
  else if Js.is_char d "t" then Some "009"%char
  else if Js.is_char d "n" then Some "010"%char
  else if Js.is_char d "f" then Some "012"%char
  else if Js.is_char d "r" then Some "013"%char
  else None.

Fixpoint unescape (s : string) : option string :=
  match s with
  | EmptyString => Some EmptyString
  | String c r =>
      if Js.is_char c Js.backslash then
        match r with
        | EmptyString => None
        | String d r1 =>
            if Js.is_char d "u" then
              match r1 with
              | String "0" (String "0" (String x (String y r2))) =>
                  match unhex x, unhex y with
                  | Some a, Some b =>
                      option_map (String (ascii_of_nat (16 * a + b))) (unescape r2)
                  | _, _ => None
                  end
              | _ => None
              end
            else
              match simple d with
              | Some c' => option_map (String c') (unescape r1)
              | None => None
              end
        end
      else if Js.is_char c Js.dquote then None
      else option_map (String c) (unescape r)
  end.

(** A control character, which JSON does not allow raw inside a string. *)
Definition control (c : ascii) : bool := Nat.ltb (nat_of_ascii c) 32.

End JSON_read.

(** ** The layout of the blog's tag pages

    The patch to the theme's [InnerLayout]: the memoised computation of the
    page's theme context, and the merge with the page's front matter that
    follows it.  [normalizePages] is the theme's own and is a parameter. *)

Module TagLayout.

(** A setting of the theme context: a flag or a name. *)
Inductive Setting : Type :=
| Flag (b : bool)
| Name (s : string).

(** An object of settings, by what a property read yields. *)
Definition Settings : Type := string -> option Setting.

Definition empty : Settings := fun _ => None.

(** [o.key = value] *)
Definition assign (o : Settings) (key : string) (value : Setting) : Settings :=
  fun k => if String.eqb k key then Some value else o k.

(** [__spreadValues(a, b)]: the properties of [b] are copied onto [a]. *)
Definition spreadValues (a b : Settings) : Settings :=
  fun k => match b k with Some v => Some v | None => a k end.

(** The argument of [normalizePages]. *)
Record Args (PageMap : Type) : Type := mkArgs {
  list : PageMap;
  locale : string;
  defaultLocale : string;
  route : string
}.
Arguments mkArgs {PageMap} _ _ _ _.

(** What [normalizePages] returns: the theme context of the active page and
    the rest (directories, active index and so on), which the patch does not
    touch. *)
Record Normalized (Rest : Type) : Type := mkNormalized {
  activeThemeContext : Settings;
  rest : Rest
}.
Arguments mkNormalized {Rest} _ _.
Arguments activeThemeContext {Rest} _.
Arguments rest {Rest} _.

Section Layout.

Variables PageMap Rest : Type.
Variable normalizePages : Args PageMap -> Normalized Rest.

(** The function given to [useMemo]. *)
Definition memo (pageMap : PageMap) (locale defaultLocale fsPath : string)
    : Normalized Rest :=
  let res := normalizePages (mkArgs pageMap locale defaultLocale fsPath) in
  if String.prefix "/blog/tag/" fsPath then
    let c1 := assign (activeThemeContext res) "layout" (Name "full") in
    let c2 := assign c1 "sidebar" (Flag false) in
    let c3 := assign c2 "timestamp" (Flag false) in
    let c4 := assign c3 "pagination" (Flag false) in
    mkNormalized c4 (rest res)
  else res.

(** [themeContext], the theme context merged with the front matter. *)
Definition themeContext (pageMap : PageMap) (locale defaultLocale fsPath : string)
    (frontMatter : Settings) : Settings :=
  spreadValues
    (spreadValues empty
       (activeThemeContext (memo pageMap locale defaultLocale fsPath)))
    frontMatter.

(** What the patch forces on a tag page. *)
Definition forced (key : string) : option Setting :=
  if String.eqb key "pagination" then Some (Flag false)
  else if String.eqb key "timestamp" then Some (Flag false)
  else if String.eqb key "sidebar" then Some (Flag false)
  else if String.eqb key "layout" then Some (Name "full")
  else None.

End Layout.

End TagLayout.

(** ** The tag pages' layout, with the theme context as a shared object

    The patch assigns into the object that [normalizePages] returned, and
    that object lives on after the render.  Here the theme contexts are
    objects of a heap, [normalizePages] reads and changes the heap and
    returns the reference of the active page's theme context, and the
    assignments of the patch are writes to the heap. *)

Module TagHeap.

Definition Ref : Type := nat.

Definition Heap : Type := Ref -> TagLayout.Settings.

(** [object.key = value], for the object at [r]. *)
Definition write (h : Heap) (r : Ref) (key : string) (value : TagLayout.Setting)
    : Heap :=
  fun r' => if Nat.eqb r' r then TagLayout.assign (h r') key value else h r'.

Record Normalized (Rest : Type) : Type := mkNormalized {
  activeThemeContext : Ref;
  rest : Rest
}.
Arguments mkNormalized {Rest} _ _.
Arguments activeThemeContext {Rest} _.
Arguments rest {Rest} _.

Section Layout.

Variables PageMap Rest : Type.
Variable normalizePages :
  TagLayout.Args PageMap -> Heap -> Normalized Rest * Heap.

(** The function given to [useMemo]. *)
Definition memo (pageMap : PageMap) (locale defaultLocale fsPath : string)
    (h : Heap) : Normalized Rest * Heap :=
  let (res, h0) :=
    normalizePages (TagLayout.mkArgs pageMap locale defaultLocale fsPath) h in
  if String.prefix "/blog/tag/" fsPath then
    let h1 := write h0 (activeThemeContext res) "layout" (TagLayout.Name "full") in
    let h2 := write h1 (activeThemeContext res) "sidebar" (TagLayout.Flag false) in
    let h3 := write h2 (activeThemeContext res) "timestamp" (TagLayout.Flag false) in
    let h4 := write h3 (activeThemeContext res) "pagination" (TagLayout.Flag false) in
    (res, h4)
  else (res, h0).

(** [themeContext], read from the object that the memo returned and merged
    with the front matter. *)
Definition themeContext (pageMap : PageMap) (locale defaultLocale fsPath : string)
    (frontMatter : TagLayout.Settings) (h : Heap) : TagLayout.Settings * Heap :=
  let (res, h') := memo pageMap locale defaultLocale fsPath h in
  (TagLayout.spreadValues
     (TagLayout.spreadValues TagLayout.empty (h' (activeThemeContext res)))
     frontMatter,
   h').

End Layout.

(** A [normalizePages] that hands out one shared theme object, at
    reference 0, for every page and never writes to it. *)
Definition shared_default (a : TagLayout.Args unit) (h : Heap)
    : Normalized unit * Heap :=
  (mkNormalized 0%nat tt, h).

End TagHeap.

(** * Properties *)

(** ** Splitting strings *)

Lemma take_until_spec (stop : ascii -> bool) (s a b : string) :
  Js.take_until stop s = (a, b) ->
  s = a ++ b /\ Js.free_of stop a = true
  /\ match b with String c _ => stop c = true | EmptyString => True end.
Proof.
  revert a b; induction s as [|c r IH]; simpl; intros a b H.
  - inversion H; subst; auto.
  - destruct (stop c) eqn:E.
    + inversion H; subst; simpl; auto.
    + destruct (Js.take_until stop r) as [a' b'] eqn:R.
      inversion H; subst.
      destruct (IH a' b eq_refl) as (-> & F & S).
      simpl; rewrite E; auto.
Qed.

Lemma take_until_app (stop : ascii -> bool) (a b : string) :
  Js.free_of stop a = true ->
  match b with String c _ => stop c = true | EmptyString => True end ->
  Js.take_until stop (a ++ b) = (a, b).
Proof.
  induction a as [|c r IH]; simpl; intros F S.
  - destruct b as [|d b']; simpl; [reflexivity | now rewrite S].
  - apply andb_prop in F as [Hc Hr].
    apply negb_true_iff in Hc; rewrite Hc.
    now rewrite (IH Hr S).
Qed.

Lemma starts_with_inv (c : ascii) (s : string) :
  URL.starts_with c s = true -> exists r, s = String c r.
Proof.
  destruct s as [|d r]; simpl; [discriminate|].
  unfold Js.is_char; intros H; apply Ascii.eqb_eq in H; subst; eauto.
Qed.

Lemma optional_inv (c : ascii) (s : string) :
  URL.optional c s = true ->
  s = "" \/ exists d r, s = String c (String d r).
Proof.
  unfold URL.optional; intros H.
  apply orb_prop in H as [H | H].
  - left; now apply String.eqb_eq.
  - right. apply andb_prop in H as [H1 H2].
    apply starts_with_inv in H1 as [r ->].
    destruct r as [|d r]; [|eauto].
    now rewrite String.eqb_refl in H2.
Qed.

Lemma append_assoc (a b c : string) : (a ++ b) ++ c = a ++ (b ++ c).
Proof. induction a as [|x a IH]; simpl; [reflexivity | now rewrite IH]. Qed.

(** ** Parsing a serialised URL gives its components back *)

Lemma URL_new_href (u : URL.t) :
  URL.wf u = true -> URL.new (URL.href u) = Normal u.
Proof.
  destruct u as [p h pa s ha]; unfold URL.wf, URL.href; simpl.
  destruct (Js.take_until (fun c => Js.is_char c ":") p) as [scheme colon] eqn:P.
  intros W.
  repeat (apply andb_prop in W as [W ?]).
  apply negb_true_iff, String.eqb_neq in W.
  match goal with H : String.eqb colon _ = true |- _ =>
    apply String.eqb_eq in H; subst colon end.
  destruct (take_until_spec _ _ _ _ P) as (-> & Fs & _).
  match goal with H : URL.starts_with _ pa = true |- _ =>
    apply starts_with_inv in H as [pa' ->] end.
  unfold URL.new.
  rewrite append_assoc, take_until_app; [| assumption | reflexivity].
  destruct scheme as [|c0 scheme']; [congruence|].
  cbn [append].
  rewrite take_until_app; [| assumption | reflexivity].
  assert (Hs : s = "" \/ exists d r, s = String "?" (String d r))
    by now apply optional_inv.
  assert (Hh : ha = "" \/ exists d r, ha = String "#" (String d r))
    by now apply optional_inv.
  assert (Hstop : match s ++ ha with
                  | String c _ => URL.path_end c = true
                  | EmptyString => True
                  end).
  { destruct Hs as [-> | (d & r & ->)]; [|reflexivity].
    destruct Hh as [-> | (d & r & ->)]; reflexivity. }
  change (String "/" (pa' ++ s ++ ha)) with (String "/" pa' ++ (s ++ ha)).
  rewrite (take_until_app URL.path_end (String "/" pa') (s ++ ha)); try assumption.
  rewrite take_until_app; try assumption.
  - replace (String.eqb (String "/" pa') "") with false by reflexivity.
    replace (String.eqb s "?") with false.
    replace (String.eqb ha "#") with false.
    + reflexivity.
    + destruct Hh as [-> | (d & r & ->)]; reflexivity.
    + destruct Hs as [-> | (d & r & ->)]; reflexivity.
  - destruct Hh as [-> | (d & r & ->)]; [exact I | reflexivity].
Qed.

(** ** How an invocation runs *)

Section Runs.

Context {C : Collaborators}.

Lemma skipn_length_app {A} (l d : list A) :
  skipn (length l) (l ++ d)%list = d.
Proof. induction l as [|x l IH]; simpl; auto. Qed.

Lemma calls_of_eq {A} (m : M A) (st : State) (d : list Event) :
  log (snd (m st)) = (log st ++ d)%list -> calls_of m st = d.
Proof. unfold calls_of; intros ->; apply skipn_length_app. Qed.

Lemma call_run {A} (ev : Event) (f : World -> Completion A * World) (st : State) :
  call ev f st
  = (fst (f (world st)), mkState (snd (f (world st))) (log st ++ [ev])%list).
Proof. unfold call; destruct (f (world st)); reflexivity. Qed.

Lemma fetch_toucan_normal request env context st sentry st1 :
  new_Toucan (toucan_options request env context) st = (Normal sentry, st1) ->
  fetch request env context st
  = try_catch (fetch_try request env) (fetch_catch sentry) st1.
Proof.
  intros H; unfold fetch, bind; fold (toucan_options request env context).
  now rewrite H.
Qed.

Lemma fetch_toucan_throw request env context st e st1 :
  new_Toucan (toucan_options request env context) st = (Throw e, st1) ->
  fetch request env context st = (Throw e, st1).
Proof.
  intros H; unfold fetch, bind; fold (toucan_options request env context).
  now rewrite H.
Qed.

(** Once the clients exist, the [try] block is the chain of route tests. *)
Lemma fetch_try_route request env st1 url crisp notion st3 :
  clients request env st1 = (Normal (url, crisp, notion), st3) ->
  fetch_try request env st1
  = (if String.eqb (Request.method request) "OPTIONS" then
       ret (preflight_response request)
     else if is_conductor request url then
       handleConductorContact (conductor_args request env notion)
     else if is_contact_us request url then
       handleContactUs (contact_us_args request env crisp notion)
     else ret (not_found_response request)) st3.
Proof.
  unfold clients, fetch_try, bind, lift, ret.
  destruct (URL.new (Request.url request)) as [u|]; [|discriminate].
  destruct (createCrispClient _ st1) as [[cr|] st2]; [|discriminate].
  destruct (new_Client _ st2) as [[n|] st3']; [|discriminate].
  intros H; inversion H; subst; reflexivity.
Qed.

Lemma fetch_try_clients_throw request env st1 e st3 :
  clients request env st1 = (Throw e, st3) ->
  fetch_try request env st1 = (Throw e, st3).
Proof.
  unfold clients, fetch_try, bind, lift, ret.
  destruct (URL.new (Request.url request)) as [u|];
    [|intros H; inversion H; reflexivity].
  destruct (createCrispClient _ st1) as [[cr|] st2];
    [|intros H; inversion H; reflexivity].
  destruct (new_Client _ st2) as [[n|] st3'];
    [discriminate|intros H; inversion H; reflexivity].
Qed.

Lemma fetch_catch_run sentry e st :
  fetch_catch sentry e st
  = (match Js.get_message e with
     | Normal v => Normal (error_response v)
     | Throw t => Throw t
     end,
     mkState (captureException_impl sentry e (world st))
             (log st ++ [CaptureException sentry e])%list).
Proof.
  unfold fetch_catch, bind, captureException, lift, ret.
  rewrite call_run; simpl.
  destruct (Js.get_message e); reflexivity.
Qed.

(** The calls made while the clients are constructed. *)
Lemma clients_normal_log request env st1 url crisp notion st3 :
  clients request env st1 = (Normal (url, crisp, notion), st3) ->
  log st3
  = (log st1
     ++ [CreateCrispClient
           (CrispOptions.mk (Env.CRISP_TOKEN env) (Env.CRISP_WEBSITE_ID env));
         NewClient (ClientOptions.mk (Env.NOTION_TOKEN env))])%list.
Proof.
  unfold clients, bind, lift, ret, createCrispClient, new_Client.
  destruct (URL.new (Request.url request)) as [u|]; [|discriminate].
  rewrite call_run.
  destruct (fst (createCrispClient_impl _ _)); [|discriminate].
  rewrite call_run.
  destruct (fst (new_Client_impl _ _)); [|discriminate].
  intros H; inversion H; subst; simpl.
  now rewrite <- app_assoc.
Qed.

Lemma clients_log request env st1 c st3 :
  clients request env st1 = (c, st3) ->
  exists d, log st3 = (log st1 ++ d)%list
            /\ forallb is_client_construction d = true
            /\ (length (filter is_client_construction d) <= 2)%nat.
Proof.
  unfold clients, bind, lift, ret, createCrispClient, new_Client.
  destruct (URL.new (Request.url request)) as [u|].
  - rewrite call_run.
    destruct (fst (createCrispClient_impl _ _)).
    + rewrite call_run.
      destruct (fst (new_Client_impl _ _));
        (intros H; inversion H; subst; simpl;
         rewrite <- app_assoc; eexists; split; [reflexivity | simpl; auto]).
    + intros H; inversion H; subst; simpl.
      eexists; split; [reflexivity | simpl; auto].
  - intros H; inversion H; subst.
    exists []; rewrite app_nil_r; simpl; auto.
Qed.

Lemma new_Toucan_run o st :
  new_Toucan o st
  = (fst (new_Toucan_impl o (world st)),
     mkState (snd (new_Toucan_impl o (world st))) (log st ++ [NewToucan o])%list).
Proof. apply call_run. Qed.

End Runs.

Section Routing.

Context {C : Collaborators}.

Lemma setup_log request env context st sentry st1 url crisp notion st3 :
  new_Toucan (toucan_options request env context) st = (Normal sentry, st1) ->
  clients request env st1 = (Normal (url, crisp, notion), st3) ->
  log st3
  = (log st
     ++ [NewToucan (toucan_options request env context);
         CreateCrispClient
           (CrispOptions.mk (Env.CRISP_TOKEN env) (Env.CRISP_WEBSITE_ID env));
         NewClient (ClientOptions.mk (Env.NOTION_TOKEN env))])%list.
Proof.
  intros H1 H2.
  rewrite (clients_normal_log _ _ _ _ _ _ _ H2).
  rewrite new_Toucan_run in H1; inversion H1; subst; simpl.
  now rewrite <- app_assoc.
Qed.

(** A handler that is reached is called once; its answer is the answer of
    the invocation when it is a response, and goes to the catch clause when
    it is a throw. *)
Lemma try_handler (ev : Event) (impl : World -> Completion Response.t * World)
    (sentry : Sentry) (st3 : State) :
  try_catch (call ev impl) (fetch_catch sentry) st3
  = match fst (impl (world st3)) with
    | Normal r =>
        (Normal r, mkState (snd (impl (world st3))) (log st3 ++ [ev])%list)
    | Throw e =>
        (match Js.get_message e with
         | Normal v => Normal (error_response v)
         | Throw t => Throw t
         end,
         mkState (captureException_impl sentry e (snd (impl (world st3))))
                 (log st3 ++ [ev; CaptureException sentry e])%list)
    end.
Proof.
  unfold try_catch; rewrite call_run.
  destruct (fst (impl (world st3))); [reflexivity|].
  rewrite fetch_catch_run; simpl.
  now rewrite <- app_assoc.
Qed.

Lemma fetch_conductor request env context st sentry st1 url crisp notion st3 :
  new_Toucan (toucan_options request env context) st = (Normal sentry, st1) ->
  clients request env st1 = (Normal (url, crisp, notion), st3) ->
  Request.method request = "POST" ->
  URL.pathname url = "/api/conductor" ->
  fetch request env context st
  = try_catch (handleConductorContact (conductor_args request env notion))
              (fetch_catch sentry) st3.
Proof.
  intros H1 H2 Hm Hp.
  rewrite (fetch_toucan_normal _ _ _ _ _ _ H1).
  unfold try_catch; rewrite (fetch_try_route _ _ _ _ _ _ _ H2).
  unfold is_conductor; rewrite Hm, Hp; reflexivity.
Qed.

Lemma fetch_contact_us request env context st sentry st1 url crisp notion st3 :
  new_Toucan (toucan_options request env context) st = (Normal sentry, st1) ->
  clients request env st1 = (Normal (url, crisp, notion), st3) ->
  Request.method request = "POST" ->
  URL.pathname url = "/api/contact-us" ->
  fetch request env context st
  = try_catch (handleContactUs (contact_us_args request env crisp notion))
              (fetch_catch sentry) st3.
Proof.
  intros H1 H2 Hm Hp.
  rewrite (fetch_toucan_normal _ _ _ _ _ _ H1).
  unfold try_catch; rewrite (fetch_try_route _ _ _ _ _ _ _ H2).
  unfold is_conductor, is_contact_us; rewrite Hm, Hp; reflexivity.
Qed.

(** C1: a POST to /api/conductor calls the conductor handler, and no other
    handler, once, with the request, the Notion client and the conductor
    database id; a POST to /api/contact-us calls the contact-us handler with
    the request, the Crisp client, the Notion client and the contact-us
    database id; and a response that the handler returns is the result of
    [fetch] as it is. *)
Theorem fetch_routes_post_to_handler
    request env context st sentry st1 url crisp notion st3 :
  new_Toucan (toucan_options request env context) st = (Normal sentry, st1) ->
  clients request env st1 = (Normal (url, crisp, notion), st3) ->
  Request.method request = "POST" ->
  (URL.pathname url = "/api/conductor" ->
     filter is_handler (calls_of (fetch request env context) st)
     = [HandleConductorContact (conductor_args request env notion)]
     /\ forall r w,
          handleConductorContact_impl (conductor_args request env notion) (world st3)
          = (Normal r, w) ->
          fst (fetch request env context st) = Normal r)
  /\ (URL.pathname url = "/api/contact-us" ->
     filter is_handler (calls_of (fetch request env context) st)
     = [HandleContactUs (contact_us_args request env crisp notion)]
     /\ forall r w,
          handleContactUs_impl (contact_us_args request env crisp notion) (world st3)
          = (Normal r, w) ->
          fst (fetch request env context st) = Normal r).
Proof.
  intros H1 H2 Hm.
  pose proof (setup_log _ _ _ _ _ _ _ _ _ _ H1 H2) as L.
  split; intros Hp.
  - pose proof (fetch_conductor _ _ _ _ _ _ _ _ _ _ H1 H2 Hm Hp) as E.
    unfold handleConductorContact in E; rewrite try_handler in E.
    unfold calls_of; rewrite E; split.
    + destruct (fst (handleConductorContact_impl _ _)); simpl;
        rewrite L, <- app_assoc, skipn_length_app; reflexivity.
    + intros r w R; rewrite R; reflexivity.
  - pose proof (fetch_contact_us _ _ _ _ _ _ _ _ _ _ H1 H2 Hm Hp) as E.
    unfold handleContactUs in E; rewrite try_handler in E.
    unfold calls_of; rewrite E; split.
    + destruct (fst (handleContactUs_impl _ _)); simpl;
        rewrite L, <- app_assoc, skipn_length_app; reflexivity.
    + intros r w R; rewrite R; reflexivity.
Qed.

Lemma fetch_options request env context st sentry st1 url crisp notion st3 :
  new_Toucan (toucan_options request env context) st = (Normal sentry, st1) ->
  clients request env st1 = (Normal (url, crisp, notion), st3) ->
  Request.method request = "OPTIONS" ->
  fetch request env context st = (Normal (preflight_response request), st3).
Proof.
  intros H1 H2 Hm.
  rewrite (fetch_toucan_normal _ _ _ _ _ _ H1).
  unfold try_catch; rewrite (fetch_try_route _ _ _ _ _ _ _ H2).
  rewrite Hm; reflexivity.
Qed.

Lemma fetch_not_found request env context st sentry st1 url crisp notion st3 :
  new_Toucan (toucan_options request env context) st = (Normal sentry, st1) ->
  clients request env st1 = (Normal (url, crisp, notion), st3) ->
  Request.method request <> "OPTIONS" ->
  is_conductor request url = false ->
  is_contact_us request url = false ->
  fetch request env context st = (Normal (not_found_response request), st3).
Proof.
  intros H1 H2 Hm Hc Hu.
  rewrite (fetch_toucan_normal _ _ _ _ _ _ H1).
  unfold try_catch; rewrite (fetch_try_route _ _ _ _ _ _ _ H2).
  apply String.eqb_neq in Hm; rewrite Hm, Hc, Hu; reflexivity.
Qed.

(** C4, as the code has it: an OPTIONS request for which the statements in
    front of the method test complete is answered with status 200, which is
    in the 2xx range, no body, and exactly the headers computed by
    [buildResponseCorsHeaders].  The URL is parsed and both clients are
    constructed in front of the method test, so when one of these throws,
    the OPTIONS request is answered by the catch clause instead: a response
    it gets then has status 500 and the one header that the constructor
    gives a string body, so no CORS header. *)
Theorem options_gets_preflight_response request env context st sentry st1 :
  new_Toucan (toucan_options request env context) st = (Normal sentry, st1) ->
  Request.method request = "OPTIONS" ->
  (forall url crisp notion st3,
      clients request env st1 = (Normal (url, crisp, notion), st3) ->
      exists r,
        fst (fetch request env context st) = Normal r
        /\ Response.status r = 200
        /\ Response.ok r = true
        /\ Response.body r = None
        /\ Response.headers r = buildResponseCorsHeaders (Request.headers request)
        /\ Headers.carries (Response.headers r)
                           (buildResponseCorsHeaders (Request.headers request)))
  /\ (forall e st3,
        clients request env st1 = (Throw e, st3) ->
        fst (fetch request env context st) = catch_answer e
        /\ forall r,
             fst (fetch request env context st) = Normal r ->
             Response.status r = 500
             /\ Response.ok r = false
             /\ Response.headers r = [("Content-Type", Response.text_plain)]).
Proof.
  intros H1 Hm; split.
  - intros url crisp notion st3 H2.
    rewrite (fetch_options _ _ _ _ _ _ _ _ _ _ H1 H2 Hm).
    exists (preflight_response request); simpl.
    repeat split; try reflexivity.
    intros name value H; exact H.
  - intros e st3 H2.
    assert (E : fst (fetch request env context st) = catch_answer e).
    { rewrite (fetch_toucan_normal _ _ _ _ _ _ H1).
      unfold try_catch; rewrite (fetch_try_clients_throw _ _ _ _ _ H2).
      rewrite fetch_catch_run; reflexivity. }
    split; [exact E|].
    intros r; rewrite E; unfold catch_answer.
    destruct (Js.get_message e); intros R; inversion R; subst.
    repeat split.
Qed.

(** C9: the error-reporting context is constructed in front of the [try]
    block: when its construction throws, [fetch] completes with that very
    throw, no response is produced, and the only call made is the
    construction itself (nothing is reported, no client is constructed). *)
Theorem toucan_failure_escapes request env context st e w :
  new_Toucan_impl (toucan_options request env context) (world st) = (Throw e, w) ->
  fetch request env context st
  = (Throw e,
     mkState w (log st ++ [NewToucan (toucan_options request env context)])%list)
  /\ (forall r, fst (fetch request env context st) <> Normal r)
  /\ calls_of (fetch request env context) st
     = [NewToucan (toucan_options request env context)].
Proof.
  intros H.
  assert (E : fetch request env context st
              = (Throw e,
                 mkState w (log st ++ [NewToucan (toucan_options request env context)])%list)).
  { apply fetch_toucan_throw. rewrite new_Toucan_run, H; reflexivity. }
  split; [exact E|]. split.
  - intros r; rewrite E; discriminate.
  - apply calls_of_eq; rewrite E; reflexivity.
Qed.

End Routing.

(** ** The catch-all boundary *)

Section Boundary.

Context {C : Collaborators}.

Lemma fetch_guarded_throw request env context st sentry st1 e st2 :
  new_Toucan (toucan_options request env context) st = (Normal sentry, st1) ->
  fetch_try request env st1 = (Throw e, st2) ->
  fetch request env context st
  = (match Js.get_message e with
     | Normal v => Normal (error_response v)
     | Throw t => Throw t
     end,
     mkState (captureException_impl sentry e (world st2))
             (log st2 ++ [CaptureException sentry e])%list).
Proof.
  intros H1 H2.
  rewrite (fetch_toucan_normal _ _ _ _ _ _ H1).
  unfold try_catch; rewrite H2; apply fetch_catch_run.
Qed.


(** The steps that the [try] block guards: a URL that does not parse, a
    client constructor that throws and a route handler that throws (or whose
    promise rejects) all end the block with that throw. *)
Lemma guarded_steps_throw request env st1 e :
  (URL.new (Request.url request) = Throw e ->
   fetch_try request env st1 = (Throw e, st1))
  /\ (forall url w,
        URL.new (Request.url request) = Normal url ->
        createCrispClient_impl
          (CrispOptions.mk (Env.CRISP_TOKEN env) (Env.CRISP_WEBSITE_ID env))
          (world st1) = (Throw e, w) ->
        fst (fetch_try request env st1) = Throw e)
  /\ (forall url crisp notion st3,
        clients request env st1 = (Normal (url, crisp, notion), st3) ->
        is_conductor request url = true ->
        Request.method request <> "OPTIONS" ->
        fst (handleConductorContact_impl (conductor_args request env notion)
                                         (world st3)) = Throw e ->
        fst (fetch_try request env st1) = Throw e)
  /\ (forall url crisp notion st3,
        clients request env st1 = (Normal (url, crisp, notion), st3) ->
        is_conductor request url = false ->
        is_contact_us request url = true ->
        Request.method request <> "OPTIONS" ->
        fst (handleContactUs_impl (contact_us_args request env crisp notion)
                                  (world st3)) = Throw e ->
        fst (fetch_try request env st1) = Throw e).
Proof.
  split; [|split; [|split]].
  - intros U; unfold fetch_try, bind, lift; now rewrite U.
  - intros url w U K.
    unfold fetch_try, bind, lift, createCrispClient; rewrite U, call_run, K.
    reflexivity.
  - intros url crisp notion st3 H2 Hc Hm T.
    rewrite (fetch_try_route _ _ _ _ _ _ _ H2).
    apply String.eqb_neq in Hm; rewrite Hm, Hc.
    unfold handleConductorContact; rewrite call_run; exact T.
  - intros url crisp notion st3 H2 Hc Hu Hm T.
    rewrite (fetch_try_route _ _ _ _ _ _ _ H2).
    apply String.eqb_neq in Hm; rewrite Hm, Hc, Hu.
    unfold handleContactUs; rewrite call_run; exact T.
Qed.





Lemma new_Toucan_log o st c st1 :
  new_Toucan o st = (c, st1) -> log st1 = (log st ++ [NewToucan o])%list.
Proof. rewrite new_Toucan_run; intros H; inversion H; reflexivity. Qed.

(** C3, as the code has it: a throw inside the [try] block that carries a
    message is answered with status 500 and the JSON body whose [error]
    member is that message; there is no fallback message: a thrown value
    other than [null] and [undefined] that has no message is answered with
    status 500 and the body of the empty object. *)
Theorem guarded_throw_becomes_500 request env context st sentry st1 e st2 :
  new_Toucan (toucan_options request env context) st = (Normal sentry, st1) ->
  fetch_try request env st1 = (Throw e, st2) ->
  (forall message, e = ErrorWith message ->
     exists r, fst (fetch request env context st) = Normal r
               /\ Response.status r = 500
               /\ Response.body r = Some (error_body message))
  /\ (e = NoMessage ->
     exists r, fst (fetch request env context st) = Normal r
               /\ Response.status r = 500
               /\ Response.body r = Some "{}").
Proof.
  intros H1 H2.
  rewrite (fetch_guarded_throw _ _ _ _ _ _ _ _ H1 H2).
  split.
  - intros message ->; simpl.
    exists (error_response (Str message)); repeat split.
  - intros ->; simpl.
    exists (error_response Undefined); repeat split.
Qed.


(** Reading the message of a thrown [null] or [undefined] throws inside
    the catch clause: the error has been reported, and the invocation ends
    with that TypeError and without a response. *)
Lemma nullish_throw_escapes request env context st sentry st1 e st2 :
  new_Toucan (toucan_options request env context) st = (Normal sentry, st1) ->
  fetch_try request env st1 = (Throw e, st2) ->
  e = ThrownNull \/ e = ThrownUndefined ->
  (exists t, fst (fetch request env context st) = Throw t)
  /\ forall r, fst (fetch request env context st) <> Normal r.
Proof.
  intros H1 H2 N.
  rewrite (fetch_guarded_throw _ _ _ _ _ _ _ _ H1 H2).
  destruct N as [-> | ->]; simpl; split; eauto; discriminate.
Qed.


End Boundary.

(** ** Headers of the responses that [fetch] builds *)

Lemma obj_set_keeps (o : Obj.t) (key value name v : string) :
  In (name, v) o -> name <> key -> In (name, v) (Obj.set o key value).
Proof.
  induction o as [|[k w] o IH]; simpl; [tauto|].
  intros [E | H] N.
  - inversion E; subst.
    apply String.eqb_neq in N; rewrite N; now left.
  - destruct (String.eqb k key); [right; exact H | right; auto].
Qed.

Lemma obj_set_has (o : Obj.t) (key value : string) :
  In (key, value) (Obj.set o key value).
Proof.
  induction o as [|[k w] o IH]; simpl; [now left|].
  destruct (String.eqb k key) eqn:E.
  - apply String.eqb_eq in E; subst; now left.
  - now right.
Qed.

Lemma headers_has_set (o : Obj.t) (key value name : string) :
  Headers.same_name key name = false ->
  Headers.has (Obj.set o key value) name = Headers.has o name.
Proof.
  intros N; induction o as [|[k w] o IH]; simpl.
  - now rewrite N.
  - destruct (String.eqb k key) eqn:E; simpl.
    + reflexivity.
    + now rewrite IH.
Qed.

Lemma headers_values_absent (hs : Headers.t) (name : string) :
  Headers.has hs name = false -> Headers.values hs name = [].
Proof.
  unfold Headers.has, Headers.values.
  induction hs as [|kv hs IH]; simpl; [reflexivity|].
  destruct (Headers.same_name (fst kv) name); simpl; [discriminate | exact IH].
Qed.

Lemma headers_get_appended (hs : Headers.t) (name value : string) :
  Headers.has hs name = false ->
  Headers.get (hs ++ [(name, value)])%list name = Some value.
Proof.
  intros H.
  assert (S : Headers.same_name name name = true)
    by (unfold Headers.same_name; apply String.eqb_refl).
  unfold Headers.get.
  replace (Headers.has (hs ++ [(name, value)])%list name) with true.
  - unfold Headers.values.
    rewrite filter_app, map_app.
    fold (Headers.values hs name); rewrite (headers_values_absent _ _ H).
    simpl; rewrite S; reflexivity.
  - unfold Headers.has; rewrite existsb_app; simpl.
    rewrite S; symmetry; apply orb_true_iff; right; reflexivity.
Qed.

Section Built_responses.

Context {C : Collaborators}.

(** The 404 answer: its status and body, the CORS headers that it carries
    (the object spread gives way only to a property named [contentType]),
    and the header that the object literal adds under the name
    [contentType]. *)
Lemma not_found_response_carries request :
  Response.status (not_found_response request) = 404
  /\ Response.body (not_found_response request) = Some not_found_body
  /\ (forall name value,
        In (name, value) (buildResponseCorsHeaders (Request.headers request)) ->
        name <> "contentType" ->
        In (name, value) (Response.headers (not_found_response request)))
  /\ In ("contentType", "application/json")
        (Response.headers (not_found_response request)).
Proof.
  split; [reflexivity|]. split; [reflexivity|].
  unfold not_found_response, Response.new; simpl.
  set (o := Obj.set _ _ _).
  split.
  - intros name value H N.
    assert (In (name, value) o) by now apply obj_set_keeps.
    destruct (Headers.has o "Content-Type"); [assumption|].
    apply in_or_app; now left.
  - assert (In ("contentType", "application/json") o) by apply obj_set_has.
    destruct (Headers.has o "Content-Type"); [assumption|].
    apply in_or_app; now left.
Qed.

(** The name [contentType] is not the name of the Content-Type header, so
    when the CORS headers have no Content-Type either, the Content-Type of
    the 404 answer is the one the constructor gives a string body. *)
Lemma not_found_response_content_type request :
  Headers.has (buildResponseCorsHeaders (Request.headers request)) "Content-Type"
  = false ->
  Headers.get (Response.headers (not_found_response request)) "Content-Type"
  = Some Response.text_plain.
Proof.
  intros H.
  unfold not_found_response, Response.new; simpl.
  rewrite headers_has_set by reflexivity.
  rewrite H.
  apply headers_get_appended.
  now rewrite headers_has_set by reflexivity.
Qed.

(** C6: a 500 answer of the catch clause has the one header that the
    constructor gives a string body and nothing else, so none of the CORS
    headers; the 404 answer carries the CORS headers. *)
Theorem error_response_lacks_cors_headers request env context st sentry st1 :
  new_Toucan (toucan_options request env context) st = (Normal sentry, st1) ->
  (forall e st2 r,
      fetch_try request env st1 = (Throw e, st2) ->
      fst (fetch request env context st) = Normal r ->
      Response.status r = 500
      /\ Response.headers r = [("Content-Type", Response.text_plain)]
      /\ forall name,
           Headers.same_name name "Content-Type" = false ->
           Headers.get (Response.headers r) name = None)
  /\ (forall url crisp notion st3,
        clients request env st1 = (Normal (url, crisp, notion), st3) ->
        Request.method request <> "OPTIONS" ->
        is_conductor request url = false ->
        is_contact_us request url = false ->
        exists r,
          fst (fetch request env context st) = Normal r
          /\ Response.status r = 404
          /\ forall name value,
               In (name, value) (buildResponseCorsHeaders (Request.headers request)) ->
               name <> "contentType" ->
               In (name, value) (Response.headers r)).
Proof.
  intros H1; split.
  - intros e st2 r H2.
    rewrite (fetch_guarded_throw _ _ _ _ _ _ _ _ H1 H2); simpl.
    destruct (Js.get_message e) as [v|]; intros R; inversion R; subst.
    split; [reflexivity|]. split; [reflexivity|].
    intros name N.
    unfold Headers.get, Headers.has; simpl.
    unfold Headers.same_name in *.
    rewrite String.eqb_sym in N.
    now rewrite N.
  - intros url crisp notion st3 H2 Hm Hc Hu.
    rewrite (fetch_not_found _ _ _ _ _ _ _ _ _ _ H1 H2 Hm Hc Hu).
    exists (not_found_response request).
    destruct (not_found_response_carries request) as (S & _ & K & _).
    auto.
Qed.

End Built_responses.

(** ** The preflight branch *)

Section Preflight.

Context {C : Collaborators}.

Lemma constructions_are_no_handlers (d : list Event) :
  forallb is_client_construction d = true -> filter is_handler d = [].
Proof.
  induction d as [|ev d IH]; simpl; [reflexivity|].
  intros H; apply andb_prop in H as [H1 H2].
  destruct ev; simpl in *; try discriminate; auto.
Qed.

(** C7, as the code has it: an OPTIONS request never reaches a route
    handler, but the two clients are constructed in front of the method
    test, for OPTIONS like for every other request: when these steps
    complete, the preflight response is returned and the calls of the
    invocation are the three constructions, Toucan, Crisp and Notion. *)
Theorem options_constructs_clients_and_calls_no_handler
    request env context st :
  Request.method request = "OPTIONS" ->
  filter is_handler (calls_of (fetch request env context) st) = []
  /\ forall sentry st1 url crisp notion st3,
       new_Toucan (toucan_options request env context) st = (Normal sentry, st1) ->
       clients request env st1 = (Normal (url, crisp, notion), st3) ->
       fst (fetch request env context st) = Normal (preflight_response request)
       /\ calls_of (fetch request env context) st
          = [NewToucan (toucan_options request env context);
             CreateCrispClient
               (CrispOptions.mk (Env.CRISP_TOKEN env) (Env.CRISP_WEBSITE_ID env));
             NewClient (ClientOptions.mk (Env.NOTION_TOKEN env))].
Proof.
  intros Hm; split.
  - destruct (new_Toucan (toucan_options request env context) st)
      as [[sentry|e] st1] eqn:H1.
    + pose proof (new_Toucan_log _ _ _ _ H1) as L1.
      destruct (clients request env st1) as [[[[url crisp] notion]|e] st3] eqn:H2.
      * unfold calls_of.
        rewrite (fetch_options _ _ _ _ _ _ _ _ _ _ H1 H2 Hm); simpl.
        rewrite (setup_log _ _ _ _ _ _ _ _ _ _ H1 H2), skipn_length_app.
        reflexivity.
      * destruct (clients_log _ _ _ _ _ H2) as (d & L2 & K & _).
        unfold calls_of.
        rewrite (fetch_guarded_throw _ _ _ _ _ _ _ _ H1
                   (fetch_try_clients_throw _ _ _ _ _ H2)); simpl.
        rewrite L2, L1, <- !app_assoc, skipn_length_app; simpl.
        rewrite filter_app, (constructions_are_no_handlers d K); reflexivity.
    + unfold calls_of.
      rewrite (fetch_toucan_throw _ _ _ _ _ _ H1); simpl.
      rewrite (new_Toucan_log _ _ _ _ H1), skipn_length_app; reflexivity.
  - intros sentry st1 url crisp notion st3 H1 H2.
    rewrite (fetch_options _ _ _ _ _ _ _ _ _ _ H1 H2 Hm).
    split; [reflexivity|].
    apply calls_of_eq.
    rewrite (fetch_options _ _ _ _ _ _ _ _ _ _ H1 H2 Hm); simpl.
    apply (setup_log _ _ _ _ _ _ _ _ _ _ H1 H2).
Qed.

End Preflight.

(** ** Determinism *)

Section Determinism.

Context {C : Collaborators}.

Lemma stateless_ret {A} (a : A) : stateless (ret a).
Proof. intros st st'; reflexivity. Qed.

Lemma stateless_lift {A} (c : Completion A) : stateless (lift c).
Proof. intros st st'; reflexivity. Qed.

Lemma stateless_call {A} (ev : Event) (f : World -> Completion A * World) :
  (forall w w', fst (f w) = fst (f w')) -> stateless (call ev f).
Proof. intros H st st'; rewrite !call_run; simpl; apply H. Qed.

Lemma stateless_bind {A B} (m : M A) (k : A -> M B) :
  stateless m -> (forall a, stateless (k a)) -> stateless (bind m k).
Proof.
  intros Hm Hk st st'; unfold bind.
  specialize (Hm st st').
  destruct (m st) as [[a|e] s], (m st') as [[a'|e'] s']; simpl in Hm;
    inversion Hm; subst; [apply Hk | reflexivity].
Qed.

Lemma stateless_try_catch {A} (m : M A) (h : Thrown -> M A) :
  stateless m -> (forall e, stateless (h e)) -> stateless (try_catch m h).
Proof.
  intros Hm Hh st st'; unfold try_catch.
  specialize (Hm st st').
  destruct (m st) as [[a|e] s], (m st') as [[a'|e'] s']; simpl in Hm;
    inversion Hm; subst; [reflexivity | apply Hh].
Qed.

Lemma stateless_fetch_catch sentry e : stateless (fetch_catch sentry e).
Proof.
  unfold fetch_catch.
  apply stateless_bind; [apply stateless_call; reflexivity|]; intros _.
  apply stateless_bind; [apply stateless_lift|]; intros v.
  apply stateless_ret.
Qed.

Lemma stateless_fetch_try request env :
  deterministic -> stateless (fetch_try request env).
Proof.
  intros (_ & Dc & Dn & Dh & Du); unfold fetch_try.
  apply stateless_bind; [apply stateless_lift|]; intros url.
  apply stateless_bind; [apply stateless_call, Dc|]; intros crisp.
  apply stateless_bind; [apply stateless_call, Dn|]; intros notion.
  destruct (String.eqb (Request.method request) "OPTIONS");
    [apply stateless_ret|].
  destruct (String.eqb (Request.method request) "POST"
            && String.eqb (URL.pathname url) "/api/conductor");
    [apply stateless_call, Dh|].
  destruct (String.eqb (Request.method request) "POST"
            && String.eqb (URL.pathname url) "/api/contact-us");
    [apply stateless_call, Du | apply stateless_ret].
Qed.

Lemma stateless_fetch request env context :
  deterministic -> stateless (fetch request env context).
Proof.
  intros D; unfold fetch.
  apply stateless_bind; [apply stateless_call, D|]; intros sentry.
  apply stateless_try_catch;
    [now apply stateless_fetch_try | apply stateless_fetch_catch].
Qed.

(** C8: against collaborators whose answers do not depend on the state of
    the world, the answer of [fetch] to a request in an environment is the
    same whatever the state it starts in; in particular a second
    invocation, started in the state the first one left behind, answers as
    the first did. *)
Theorem fetch_is_deterministic request env context :
  deterministic ->
  (forall st st',
      fst (fetch request env context st) = fst (fetch request env context st'))
  /\ forall st,
       fst (fetch request env context (snd (fetch request env context st)))
       = fst (fetch request env context st).
Proof.
  intros D; split.
  - apply stateless_fetch, D.
  - intros st; apply stateless_fetch, D.
Qed.

End Determinism.

(** ** Matching the route *)

Section Matching.

Context {C : Collaborators}.

Lemma clients_url request env st1 url crisp notion st3 :
  clients request env st1 = (Normal (url, crisp, notion), st3) ->
  URL.new (Request.url request) = Normal url.
Proof.
  unfold clients, bind, lift, ret.
  destruct (URL.new (Request.url request)) as [u|]; [|discriminate].
  destruct (createCrispClient _ st1) as [[cr|] st2]; [|discriminate].
  destruct (new_Client _ st2) as [[n|] st3']; [|discriminate].
  intros H; inversion H; reflexivity.
Qed.

Lemma fetch_conductor_calls request env context st sentry st1 url crisp notion st3 :
  new_Toucan (toucan_options request env context) st = (Normal sentry, st1) ->
  clients request env st1 = (Normal (url, crisp, notion), st3) ->
  Request.method request = "POST" ->
  URL.pathname url = "/api/conductor" ->
  filter is_handler (calls_of (fetch request env context) st)
  = [HandleConductorContact (conductor_args request env notion)].
Proof.
  intros H1 H2 Hm Hp.
  pose proof (setup_log _ _ _ _ _ _ _ _ _ _ H1 H2) as L.
  pose proof (fetch_conductor _ _ _ _ _ _ _ _ _ _ H1 H2 Hm Hp) as E.
  unfold handleConductorContact in E; rewrite try_handler in E.
  unfold calls_of; rewrite E.
  destruct (fst (handleConductorContact_impl _ _)); simpl;
    rewrite L, <- app_assoc, skipn_length_app; reflexivity.
Qed.

Lemma no_route request url :
  Request.method request <> "POST"
  \/ (URL.pathname url <> "/api/conductor"
      /\ URL.pathname url <> "/api/contact-us") ->
  is_conductor request url = false /\ is_contact_us request url = false.
Proof.
  unfold is_conductor, is_contact_us.
  intros [Hm | [Hc Hu]].
  - apply String.eqb_neq in Hm; rewrite Hm; auto.
  - apply String.eqb_neq in Hc, Hu; rewrite Hc, Hu, !andb_false_r; auto.
Qed.

(** C10, as the code has it: the route is matched on the pathname of the
    parsed URL and on the method, by equality of strings.  A POST whose URL
    has the pathname /api/conductor goes to the conductor handler whatever
    its query string and fragment; a request whose method is not OPTIONS and
    that differs from both routes, in the method or in the pathname, gets
    the 404 answer and reaches no handler; a request whose method is OPTIONS
    gets the preflight response instead. *)
Theorem route_matching_is_exact
    request env context st sentry st1 url crisp notion st3 :
  new_Toucan (toucan_options request env context) st = (Normal sentry, st1) ->
  clients request env st1 = (Normal (url, crisp, notion), st3) ->
  (forall protocol host search hash,
      URL.wf (URL.mk protocol host "/api/conductor" search hash) = true ->
      Request.url request
      = URL.href (URL.mk protocol host "/api/conductor" search hash) ->
      Request.method request = "POST" ->
      URL.pathname url = "/api/conductor"
      /\ URL.search url = search
      /\ filter is_handler (calls_of (fetch request env context) st)
         = [HandleConductorContact (conductor_args request env notion)])
  /\ (Request.method request <> "OPTIONS" ->
      Request.method request <> "POST"
      \/ (URL.pathname url <> "/api/conductor"
          /\ URL.pathname url <> "/api/contact-us") ->
      fst (fetch request env context st) = Normal (not_found_response request)
      /\ Response.status (not_found_response request) = 404
      /\ filter is_handler (calls_of (fetch request env context) st) = [])
  /\ (Request.method request = "OPTIONS" ->
      fst (fetch request env context st) = Normal (preflight_response request)
      /\ Response.status (preflight_response request) = 200).
Proof.
  intros H1 H2; split; [|split].
  - intros protocol host search hash W U Hm.
    pose proof (clients_url _ _ _ _ _ _ _ H2) as P.
    rewrite U, (URL_new_href _ W) in P; inversion P; subst url; simpl.
    split; [reflexivity|]. split; [reflexivity|].
    now apply (fetch_conductor_calls _ _ _ _ _ _ _ _ _ _ H1 H2 Hm).
  - intros Hm N.
    destruct (no_route _ _ N) as [Hc Hu].
    pose proof (fetch_not_found _ _ _ _ _ _ _ _ _ _ H1 H2 Hm Hc Hu) as E.
    rewrite E; split; [reflexivity|]. split; [reflexivity|].
    unfold calls_of; rewrite E; simpl.
    rewrite (setup_log _ _ _ _ _ _ _ _ _ _ H1 H2), skipn_length_app.
    reflexivity.
  - intros Hm.
    rewrite (fetch_options _ _ _ _ _ _ _ _ _ _ H1 H2 Hm).
    split; reflexivity.
Qed.

End Matching.

(** ** The worker run against the stub collaborators *)

(** C2: a GET to /api/conductor is answered 404 with the body
    [{"error":"not found"}] and the CORS headers, but the header that the
    code adds is named [contentType], which is not the Content-Type header:
    the Content-Type of the answer is text/plain, not JSON. *)
Theorem get_conductor_is_404_with_text_plain_content_type :
  exists r,
    fst (fetch (C := Stub.healthy) (Stub.request "GET" Stub.conductor_url)
               Stub.env tt (Stub.start Stub.healthy 0%nat))
    = Normal r
    /\ Response.status r = 404
    /\ Response.body r = Some not_found_body
    /\ Headers.carries (Response.headers r)
         (Stub.cors (Request.headers (Stub.request "GET" Stub.conductor_url)))
    /\ Headers.get (Response.headers r) "contentType" = Some "application/json"
    /\ Headers.get (Response.headers r) "Content-Type"
       = Some "text/plain;charset=UTF-8"
    /\ Headers.get (Response.headers r) "Content-Type" <> Some "application/json".
Proof.
  eexists; split; [reflexivity|].
  repeat split; try discriminate.
  intros name value H; simpl in H |- *.
  destruct H as [H | [H | [H | []]]]; inversion H; subst; auto.
Qed.

(** C3 fails as stated: when the conductor handler throws a value that has
    no message, the answer is 500 with the body of the empty object; no
    message is substituted and the body has no [error] member. *)
Lemma error_without_message_has_no_error_member :
  exists r,
    fst (fetch (C := Stub.conductor_throws NoMessage)
               (Stub.request "POST" Stub.conductor_url)
               Stub.env tt (Stub.start (Stub.conductor_throws NoMessage) 0%nat))
    = Normal r
    /\ Response.status r = 500
    /\ Response.body r = Some "{}"
    /\ forall message, Response.body r <> Some (error_body message).
Proof.
  eexists; split; [reflexivity|].
  repeat split.
  intros message; simpl; discriminate.
Qed.

(** C4 fails as stated: the Crisp client is constructed in front of the
    method test, and with a Crisp client that insists on its token an
    OPTIONS request in an environment without the token is answered 500,
    with a body and without the CORS headers. *)
Lemma options_without_crisp_token_is_answered_500 :
  exists r,
    fst (fetch (C := Stub.healthy) (Stub.request "OPTIONS" Stub.conductor_url)
               Stub.env_without_crisp_token tt (Stub.start Stub.healthy 0%nat))
    = Normal r
    /\ Response.status r = 500
    /\ Response.ok r = false
    /\ Response.body r = Some (error_body "Crisp token is missing")
    /\ Headers.get (Response.headers r) "Access-Control-Allow-Origin" = None
    /\ ~ Headers.carries (Response.headers r)
          (Stub.cors (Request.headers (Stub.request "OPTIONS" Stub.conductor_url))).
Proof.
  eexists; split; [reflexivity|].
  repeat split.
  intros Carries.
  specialize (Carries "Access-Control-Allow-Methods" "POST, OPTIONS").
  simpl in Carries.
  destruct Carries as [H | []]; [right; left; reflexivity | discriminate H].
Qed.

(** C7 fails as stated: an OPTIONS request gets the preflight response and
    both clients have been constructed for it, the Crisp client and the
    Notion client once each. *)
Lemma options_request_constructs_the_clients :
  fst (fetch (C := Stub.healthy) (Stub.request "OPTIONS" Stub.conductor_url)
             Stub.env tt (Stub.start Stub.healthy 0%nat))
  = Normal (preflight_response (C := Stub.healthy)
              (Stub.request "OPTIONS" Stub.conductor_url))
  /\ filter is_client_construction
       (calls_of (fetch (C := Stub.healthy)
                        (Stub.request "OPTIONS" Stub.conductor_url) Stub.env tt)
                 (Stub.start Stub.healthy 0%nat))
     = [CreateCrispClient (C := Stub.healthy)
          (CrispOptions.mk (Some "crisp-token") (Some "crisp-site"));
        NewClient (C := Stub.healthy) (ClientOptions.mk (Some "notion-token"))]
  /\ filter is_client_construction
       (calls_of (fetch (C := Stub.healthy)
                        (Stub.request "OPTIONS" Stub.conductor_url) Stub.env tt)
                 (Stub.start Stub.healthy 0%nat))
     <> [].
Proof.
  split; [reflexivity|]. split; [reflexivity | discriminate].
Qed.

(** C10 fails as stated: OPTIONS differs from POST in the method string, and
    an OPTIONS request to /api/conductor is answered 200 with no body, not
    404. *)
Lemma options_to_conductor_is_not_404 :
  "OPTIONS" <> "POST"
  /\ exists r,
       fst (fetch (C := Stub.healthy) (Stub.request "OPTIONS" Stub.conductor_url)
                  Stub.env tt (Stub.start Stub.healthy 0%nat))
       = Normal r
       /\ Response.status r = 200
       /\ Response.status r <> 404
       /\ Response.body r = None.
Proof.
  split; [discriminate|].
  eexists; split; [reflexivity|].
  repeat split; discriminate.
Qed.

(** *** The theorems at concrete requests *)

Lemma fetch_routes_post_to_handler_witness :
  filter is_handler
    (calls_of (fetch (C := Stub.healthy) (Stub.request "POST" Stub.conductor_url)
                     Stub.env tt)
              (Stub.start Stub.healthy 0%nat))
  = [HandleConductorContact (C := Stub.healthy)
       (ConductorArgs.mk (Stub.request "POST" Stub.conductor_url)
          (ClientOptions.mk (Some "notion-token")) (Some "conductor-db"))]
  /\ fst (fetch (C := Stub.healthy) (Stub.request "POST" Stub.conductor_url)
                Stub.env tt (Stub.start Stub.healthy 0%nat))
     = Normal Stub.created.
Proof.
  edestruct (fetch_routes_post_to_handler (C := Stub.healthy)
               (Stub.request "POST" Stub.conductor_url) Stub.env tt
               (Stub.start Stub.healthy 0%nat)) as [Hc _];
    [reflexivity | reflexivity | reflexivity |].
  destruct (Hc eq_refl) as [Calls Answer].
  split; [exact Calls | eapply Answer; reflexivity].
Defined.

Lemma options_gets_preflight_response_witness :
  exists r,
    fst (fetch (C := Stub.healthy) (Stub.request "OPTIONS" Stub.contact_us_url)
               Stub.env tt (Stub.start Stub.healthy 0%nat))
    = Normal r
    /\ Response.status r = 200
    /\ Response.ok r = true
    /\ Response.body r = None
    /\ Response.headers r
       = Stub.cors (Request.headers (Stub.request "OPTIONS" Stub.contact_us_url))
    /\ Headers.carries (Response.headers r)
         (Stub.cors (Request.headers (Stub.request "OPTIONS" Stub.contact_us_url))).
Proof.
  edestruct (options_gets_preflight_response (C := Stub.healthy)
               (Stub.request "OPTIONS" Stub.contact_us_url) Stub.env tt
               (Stub.start Stub.healthy 0%nat))
    as [Preflight _]; [reflexivity | reflexivity |].
  eapply Preflight; reflexivity.
Defined.

Lemma toucan_failure_escapes_witness :
  fst (fetch (C := Stub.without_sentry) (Stub.request "POST" Stub.conductor_url)
             Stub.env tt (Stub.start Stub.without_sentry 0%nat))
  = Throw (ErrorWith "Invalid Sentry DSN")
  /\ calls_of (fetch (C := Stub.without_sentry)
                     (Stub.request "POST" Stub.conductor_url) Stub.env tt)
              (Stub.start Stub.without_sentry 0%nat)
     = [NewToucan (C := Stub.without_sentry)
          (ToucanOptions.mk (Some "https://key@sentry.example/1") tt
             (Stub.request "POST" Stub.conductor_url))].
Proof.
  destruct (toucan_failure_escapes (C := Stub.without_sentry)
              (Stub.request "POST" Stub.conductor_url) Stub.env tt
              (Stub.start Stub.without_sentry 0%nat)
              (ErrorWith "Invalid Sentry DSN") 1%nat eq_refl)
    as (Run & _ & Calls).
  split; [rewrite Run; reflexivity | exact Calls].
Defined.

Lemma guarded_throw_becomes_500_witness :
  exists r,
    fst (fetch (C := Stub.healthy) (Stub.request "POST" Stub.contact_us_url)
               Stub.env_without_crisp_token tt (Stub.start Stub.healthy 0%nat))
    = Normal r
    /\ Response.status r = 500
    /\ Response.body r = Some (error_body "Crisp token is missing").
Proof.
  edestruct (guarded_throw_becomes_500 (C := Stub.healthy)
               (Stub.request "POST" Stub.contact_us_url)
               Stub.env_without_crisp_token tt (Stub.start Stub.healthy 0%nat))
    as [With_message _]; [reflexivity | reflexivity |].
  exact (With_message "Crisp token is missing" eq_refl).
Defined.


Lemma error_response_lacks_cors_headers_witness :
  exists r,
    fst (fetch (C := Stub.conductor_throws (ErrorWith "Notion is down"))
               (Stub.request "POST" Stub.conductor_url) Stub.env tt
               (Stub.start (Stub.conductor_throws (ErrorWith "Notion is down")) 0%nat))
    = Normal r
    /\ Response.status r = 500
    /\ Headers.get (Response.headers r) "Access-Control-Allow-Origin" = None.
Proof.
  edestruct (error_response_lacks_cors_headers
               (C := Stub.conductor_throws (ErrorWith "Notion is down"))
               (Stub.request "POST" Stub.conductor_url) Stub.env tt
               (Stub.start (Stub.conductor_throws (ErrorWith "Notion is down")) 0%nat))
    as [On_500 _]; [reflexivity|].
  eexists; split; [reflexivity|].
  edestruct On_500 as (Status & _ & No_header); [reflexivity | reflexivity |].
  split; [exact Status | apply No_header; reflexivity].
Defined.

Lemma options_constructs_clients_and_calls_no_handler_witness :
  filter is_handler
    (calls_of (fetch (C := Stub.healthy) (Stub.request "OPTIONS" Stub.conductor_url)
                     Stub.env tt)
              (Stub.start Stub.healthy 0%nat))
  = []
  /\ length
       (calls_of (fetch (C := Stub.healthy) (Stub.request "OPTIONS" Stub.conductor_url)
                        Stub.env tt)
                 (Stub.start Stub.healthy 0%nat))
     = 3%nat.
Proof.
  destruct (options_constructs_clients_and_calls_no_handler (C := Stub.healthy)
              (Stub.request "OPTIONS" Stub.conductor_url) Stub.env tt
              (Stub.start Stub.healthy 0%nat) eq_refl)
    as [No_handler Constructed].
  split; [exact No_handler|].
  edestruct Constructed as [_ Calls]; [reflexivity | reflexivity |].
  rewrite Calls; reflexivity.
Defined.

Lemma stub_is_deterministic : deterministic (C := Stub.healthy).
Proof. repeat split. Defined.

Lemma fetch_is_deterministic_witness :
  deterministic (C := Stub.healthy)
  /\ forall st,
       fst (fetch (C := Stub.healthy) (Stub.request "POST" Stub.conductor_url)
                  Stub.env tt
                  (snd (fetch (C := Stub.healthy)
                              (Stub.request "POST" Stub.conductor_url)
                              Stub.env tt st)))
       = fst (fetch (C := Stub.healthy) (Stub.request "POST" Stub.conductor_url)
                    Stub.env tt st).
Proof.
  split; [exact stub_is_deterministic|].
  exact (proj2 (fetch_is_deterministic (C := Stub.healthy)
                  (Stub.request "POST" Stub.conductor_url) Stub.env tt
                  stub_is_deterministic)).
Defined.

Lemma route_matching_is_exact_witness :
  filter is_handler
    (calls_of (fetch (C := Stub.healthy)
                     (Stub.request "POST" "https://the-guild.dev/api/conductor?utm=mail#form")
                     Stub.env tt)
              (Stub.start Stub.healthy 0%nat))
  = [HandleConductorContact (C := Stub.healthy)
       (ConductorArgs.mk
          (Stub.request "POST" "https://the-guild.dev/api/conductor?utm=mail#form")
          (ClientOptions.mk (Some "notion-token")) (Some "conductor-db"))]
  /\ fst (fetch (C := Stub.healthy)
                (Stub.request "POST" "https://the-guild.dev/api/conductor/")
                Stub.env tt (Stub.start Stub.healthy 0%nat))
     = Normal (not_found_response (C := Stub.healthy)
                 (Stub.request "POST" "https://the-guild.dev/api/conductor/")).
Proof.
  split.
  - edestruct (route_matching_is_exact (C := Stub.healthy)
                 (Stub.request "POST" "https://the-guild.dev/api/conductor?utm=mail#form")
                 Stub.env tt (Stub.start Stub.healthy 0%nat))
      as [Query _]; [reflexivity | reflexivity |].
    apply (Query "https:" "the-guild.dev" "?utm=mail" "#form");
      reflexivity.
  - edestruct (route_matching_is_exact (C := Stub.healthy)
                 (Stub.request "POST" "https://the-guild.dev/api/conductor/")
                 Stub.env tt (Stub.start Stub.healthy 0%nat))
      as [_ [Exact _]]; [reflexivity | reflexivity |].
    apply Exact; [discriminate | right; split; discriminate].
Defined.

(** * Further properties of the worker *)

(** ** Every invocation is one of the runs *)

Section Runs_of_fetch.

Context {C : Collaborators}.

Lemma clients_cases request env st1 :
  (exists e, URL.new (Request.url request) = Throw e
             /\ clients request env st1 = (Throw e, st1))
  \/ (exists url e st2,
        URL.new (Request.url request) = Normal url
        /\ createCrispClient (crisp_options env) st1 = (Throw e, st2)
        /\ clients request env st1 = (Throw e, st2))
  \/ (exists url crisp st2 e st3,
        URL.new (Request.url request) = Normal url
        /\ createCrispClient (crisp_options env) st1 = (Normal crisp, st2)
        /\ new_Client (client_options env) st2 = (Throw e, st3)
        /\ clients request env st1 = (Throw e, st3))
  \/ (exists url crisp notion st3,
        clients request env st1 = (Normal (url, crisp, notion), st3)).
Proof.
  unfold clients, bind, lift, ret, crisp_options, client_options.
  destruct (URL.new (Request.url request)) as [url|e];
    [|left; exists e; split; reflexivity].
  right.
  destruct (createCrispClient _ st1) as [[crisp|e] st2] eqn:K1;
    [|left; exists url, e, st2; repeat split; reflexivity].
  right.
  destruct (new_Client _ st2) as [[notion|e] st3] eqn:K2; [right | left].
  - exists url, crisp, notion, st3; reflexivity.
  - exists url, crisp, st2, e, st3; repeat split; try reflexivity; exact K2.
Qed.

Lemma fetch_run request env context st :
  Run request env context st
      (calls_of (fetch request env context) st)
      (fst (fetch request env context st)).
Proof.
  destruct (new_Toucan (toucan_options request env context) st)
    as [[sentry|e] st1] eqn:H1.
  - pose proof (new_Toucan_log _ _ _ _ H1) as L1.
    destruct (clients_cases request env st1)
      as [(e & U & K) | [(url & e & st2 & U & K1 & K)
         | [(url & crisp & st2 & e & st3 & U & K1 & K2 & K)
         | (url & crisp & notion & st3 & K)]]].
    + pose proof (fetch_guarded_throw _ _ _ _ _ _ _ _ H1
                    (fetch_try_clients_throw _ _ _ _ _ K)) as E.
      replace (calls_of (fetch request env context) st)
        with [NewToucan (toucan_options request env context);
              CaptureException sentry e].
      * rewrite E; now apply Run_bad_url with (st1 := st1).
      * symmetry; apply calls_of_eq; rewrite E; simpl.
        rewrite L1, <- app_assoc; reflexivity.
    + pose proof (fetch_guarded_throw _ _ _ _ _ _ _ _ H1
                    (fetch_try_clients_throw _ _ _ _ _ K)) as E.
      assert (L2 : log st2 = (log st1 ++ [CreateCrispClient (crisp_options env)])%list).
      { unfold createCrispClient in K1; rewrite call_run in K1.
        inversion K1; reflexivity. }
      replace (calls_of (fetch request env context) st)
        with [NewToucan (toucan_options request env context);
              CreateCrispClient (crisp_options env);
              CaptureException sentry e].
      * rewrite E; now apply Run_no_crisp with (st1 := st1) (url := url) (st2 := st2).
      * symmetry; apply calls_of_eq; rewrite E; simpl.
        rewrite L2, L1, <- !app_assoc; reflexivity.
    + pose proof (fetch_guarded_throw _ _ _ _ _ _ _ _ H1
                    (fetch_try_clients_throw _ _ _ _ _ K)) as E.
      assert (L2 : log st2 = (log st1 ++ [CreateCrispClient (crisp_options env)])%list).
      { unfold createCrispClient in K1; rewrite call_run in K1.
        inversion K1; reflexivity. }
      assert (L3 : log st3 = (log st2 ++ [NewClient (client_options env)])%list).
      { unfold new_Client in K2; rewrite call_run in K2.
        inversion K2; reflexivity. }
      replace (calls_of (fetch request env context) st)
        with [NewToucan (toucan_options request env context);
              CreateCrispClient (crisp_options env);
              NewClient (client_options env);
              CaptureException sentry e].
      * rewrite E.
        now apply Run_no_notion
          with (st1 := st1) (url := url) (crisp := crisp) (st2 := st2) (st3 := st3).
      * symmetry; apply calls_of_eq; rewrite E; simpl.
        rewrite L3, L2, L1, <- !app_assoc; reflexivity.
    + pose proof (setup_log _ _ _ _ _ _ _ _ _ _ H1 K) as L.
      fold (crisp_options env) in L; fold (client_options env) in L.
      destruct (String.eqb (Request.method request) "OPTIONS") eqn:Hm.
      { apply String.eqb_eq in Hm.
        pose proof (fetch_options _ _ _ _ _ _ _ _ _ _ H1 K Hm) as E.
        replace (calls_of (fetch request env context) st)
          with [NewToucan (toucan_options request env context);
                CreateCrispClient (crisp_options env);
                NewClient (client_options env)].
        - rewrite E; now apply Run_preflight
            with (sentry := sentry) (st1 := st1) (url := url) (crisp := crisp)
                 (notion := notion) (st3 := st3).
        - symmetry; apply calls_of_eq; rewrite E; exact L. }
      apply String.eqb_neq in Hm.
      pose proof (fetch_toucan_normal _ _ _ _ _ _ H1) as F.
      assert (R := fetch_try_route _ _ _ _ _ _ _ K).
      pose proof Hm as Hm'; apply String.eqb_neq in Hm'; rewrite Hm' in R.
      destruct (is_conductor request url) eqn:Hc;
        [|destruct (is_contact_us request url) eqn:Hu].
      * unfold try_catch in F; rewrite R in F.
        fold (try_catch (handleConductorContact (conductor_args request env notion))
                        (fetch_catch sentry) st3) in F.
        unfold handleConductorContact in F at 1; rewrite try_handler in F.
        destruct (handleConductorContact (conductor_args request env notion) st3)
          as [c st4] eqn:Hh.
        pose proof Hh as Hh'.
        unfold handleConductorContact in Hh'; rewrite call_run in Hh'.
        inversion Hh' as [[Hfst Hst]]; rewrite Hfst in F.
        destruct c as [r|e].
        -- replace (calls_of (fetch request env context) st)
             with [NewToucan (toucan_options request env context);
                   CreateCrispClient (crisp_options env);
                   NewClient (client_options env);
                   HandleConductorContact (conductor_args request env notion)].
           ++ rewrite F; simpl.
              now apply Run_conductor
                with (sentry := sentry) (st1 := st1) (url := url) (crisp := crisp)
                     (st3 := st3) (st4 := st4).
           ++ symmetry; apply calls_of_eq; rewrite F; simpl.
              rewrite L, <- app_assoc; reflexivity.
        -- replace (calls_of (fetch request env context) st)
             with [NewToucan (toucan_options request env context);
                   CreateCrispClient (crisp_options env);
                   NewClient (client_options env);
                   HandleConductorContact (conductor_args request env notion);
                   CaptureException sentry e].
           ++ rewrite F; simpl.
              now apply Run_conductor_throws
                with (st1 := st1) (url := url) (crisp := crisp)
                     (st3 := st3) (st4 := st4).
           ++ symmetry; apply calls_of_eq; rewrite F; simpl.
              rewrite L, <- app_assoc; reflexivity.
      * unfold try_catch in F; rewrite R in F.
        fold (try_catch (handleContactUs (contact_us_args request env crisp notion))
                        (fetch_catch sentry) st3) in F.
        unfold handleContactUs in F at 1; rewrite try_handler in F.
        destruct (handleContactUs (contact_us_args request env crisp notion) st3)
          as [c st4] eqn:Hh.
        pose proof Hh as Hh'.
        unfold handleContactUs in Hh'; rewrite call_run in Hh'.
        inversion Hh' as [[Hfst Hst]]; rewrite Hfst in F.
        destruct c as [r|e].
        -- replace (calls_of (fetch request env context) st)
             with [NewToucan (toucan_options request env context);
                   CreateCrispClient (crisp_options env);
                   NewClient (client_options env);
                   HandleContactUs (contact_us_args request env crisp notion)].
           ++ rewrite F; simpl.
              now apply Run_contact_us
                with (sentry := sentry) (st1 := st1) (url := url)
                     (st3 := st3) (st4 := st4).
           ++ symmetry; apply calls_of_eq; rewrite F; simpl.
              rewrite L, <- app_assoc; reflexivity.
        -- replace (calls_of (fetch request env context) st)
             with [NewToucan (toucan_options request env context);
                   CreateCrispClient (crisp_options env);
                   NewClient (client_options env);
                   HandleContactUs (contact_us_args request env crisp notion);
                   CaptureException sentry e].
           ++ rewrite F; simpl.
              now apply Run_contact_us_throws
                with (st1 := st1) (url := url) (st3 := st3) (st4 := st4).
           ++ symmetry; apply calls_of_eq; rewrite F; simpl.
              rewrite L, <- app_assoc; reflexivity.
      * pose proof (fetch_not_found _ _ _ _ _ _ _ _ _ _ H1 K Hm Hc Hu) as E.
        replace (calls_of (fetch request env context) st)
          with [NewToucan (toucan_options request env context);
                CreateCrispClient (crisp_options env);
                NewClient (client_options env)].
        -- rewrite E; now apply Run_not_found
             with (sentry := sentry) (st1 := st1) (url := url) (crisp := crisp)
                  (notion := notion) (st3 := st3).
        -- symmetry; apply calls_of_eq; rewrite E; exact L.
  - pose proof (fetch_toucan_throw _ _ _ _ _ _ H1) as E.
    replace (calls_of (fetch request env context) st)
      with [NewToucan (toucan_options request env context)].
    + rewrite E; now apply Run_no_sentry with (st1 := st1).
    + symmetry; apply calls_of_eq; rewrite E; simpl.
      apply (new_Toucan_log _ _ _ _ H1).
Qed.

End Runs_of_fetch.

(** ** What follows for the calls of an invocation *)

Section Calls_of_fetch.

Context {C : Collaborators}.

Lemma is_conductor_inv request url :
  is_conductor request url = true ->
  Request.method request = "POST" /\ URL.pathname url = "/api/conductor".
Proof.
  unfold is_conductor; intros H; apply andb_prop in H as [Hm Hp].
  split; now apply String.eqb_eq.
Qed.

Lemma is_contact_us_inv request url :
  is_contact_us request url = true ->
  Request.method request = "POST" /\ URL.pathname url = "/api/contact-us".
Proof.
  unfold is_contact_us; intros H; apply andb_prop in H as [Hm Hp].
  split; now apply String.eqb_eq.
Qed.

(** X1: a route handler is only ever called for its own route: a call to the
    conductor handler means that the method is POST and the pathname of the
    request's URL is /api/conductor, and the call carries this request and
    the conductor database id of this environment; likewise for the
    contact-us handler. *)
Theorem handler_called_only_on_its_route request env context st :
  (forall a,
      In (HandleConductorContact a) (calls_of (fetch request env context) st) ->
      Request.method request = "POST"
      /\ (exists url, URL.new (Request.url request) = Normal url
                      /\ URL.pathname url = "/api/conductor")
      /\ ConductorArgs.request a = request
      /\ ConductorArgs.notionDatabaseId a = Env.NOTION_CONDUCTOR_DATABASE_ID env)
  /\ (forall a,
        In (HandleContactUs a) (calls_of (fetch request env context) st) ->
        Request.method request = "POST"
        /\ (exists url, URL.new (Request.url request) = Normal url
                        /\ URL.pathname url = "/api/contact-us")
        /\ ContactUsArgs.request a = request
        /\ ContactUsArgs.notionDatabaseId a
           = Env.NOTION_CONTACT_US_DATABASE_ID env).
Proof.
  pose proof (fetch_run request env context st) as R.
  remember (calls_of (fetch request env context) st) as calls eqn:Ecalls.
  clear Ecalls.
  split; intros a H;
    destruct R; simpl in H;
    repeat match goal with
           | H : _ \/ _ |- _ => destruct H as [H | H]
           | H : False |- _ => destruct H
           end;
    try discriminate.
  - inversion H; subst a.
    match goal with K : is_conductor _ _ = true |- _ =>
      apply is_conductor_inv in K as [Hm Hp] end.
    repeat split; try assumption; try reflexivity.
    eexists; split; [eapply clients_url; eassumption | assumption].
  - inversion H; subst a.
    match goal with K : is_conductor _ _ = true |- _ =>
      apply is_conductor_inv in K as [Hm Hp] end.
    repeat split; try assumption; try reflexivity.
    eexists; split; [eapply clients_url; eassumption | assumption].
  - inversion H; subst a.
    match goal with K : is_contact_us _ _ = true |- _ =>
      apply is_contact_us_inv in K as [Hm Hp] end.
    repeat split; try assumption; try reflexivity.
    eexists; split; [eapply clients_url; eassumption | assumption].
  - inversion H; subst a.
    match goal with K : is_contact_us _ _ = true |- _ =>
      apply is_contact_us_inv in K as [Hm Hp] end.
    repeat split; try assumption; try reflexivity.
    eexists; split; [eapply clients_url; eassumption | assumption].
Qed.

(** X2: the calls of an invocation come in one fixed order: the
    error-reporting context first, then the Crisp client, then the Notion
    client, then at most one route handler, and a report to the collector
    only as the last call; no client is constructed after a failed step and
    no handler is called before both clients exist. *)
Theorem calls_follow_one_order request env context st :
  In (map callee (calls_of (fetch request env context) st)) call_orders.
Proof.
  pose proof (fetch_run request env context st) as R.
  remember (calls_of (fetch request env context) st) as calls eqn:Ecalls.
  clear Ecalls.
  destruct R; simpl; tauto.
Qed.

(** X3: when the Crisp client cannot be constructed, every request fails,
    whatever its method and path, OPTIONS and the conductor route that does
    not use Crisp included: the error is reported and answered by the catch
    clause, and neither the Notion client is constructed nor a handler
    called. *)
Theorem crisp_failure_fails_every_request
    request env context st sentry st1 url e w :
  new_Toucan (toucan_options request env context) st = (Normal sentry, st1) ->
  URL.new (Request.url request) = Normal url ->
  createCrispClient_impl (crisp_options env) (world st1) = (Throw e, w) ->
  fst (fetch request env context st) = catch_answer e
  /\ (forall r, fst (fetch request env context st) = Normal r ->
                Response.status r = 500)
  /\ calls_of (fetch request env context) st
     = [NewToucan (toucan_options request env context);
        CreateCrispClient (crisp_options env);
        CaptureException sentry e].
Proof.
  intros H1 U K.
  assert (T : fetch_try request env st1
              = (Throw e,
                 mkState w (log st1 ++ [CreateCrispClient (crisp_options env)])%list)).
  { unfold fetch_try, bind, lift, createCrispClient.
    fold (crisp_options env).
    rewrite U, call_run, K; reflexivity. }
  pose proof (fetch_guarded_throw _ _ _ _ _ _ _ _ H1 T) as E.
  fold (catch_answer e) in E.
  split; [rewrite E; reflexivity|]. split.
  - rewrite E; simpl; unfold catch_answer.
    destruct (Js.get_message e); intros r R; inversion R; reflexivity.
  - apply calls_of_eq; rewrite E; simpl.
    rewrite (new_Toucan_log _ _ _ _ H1), <- !app_assoc; reflexivity.
Qed.

End Calls_of_fetch.

(** ** The Content-Type of the 404 answer *)

Lemma headers_values_set (o : Obj.t) (key value name : string) :
  Headers.same_name key name = false ->
  Headers.values (Obj.set o key value) name = Headers.values o name.
Proof.
  intros N; unfold Headers.values.
  induction o as [|[k w] o IH]; simpl.
  - now rewrite N.
  - destruct (String.eqb k key) eqn:E; simpl.
    + apply String.eqb_eq in E; subst k; now rewrite N.
    + destruct (Headers.same_name k name); simpl; now rewrite IH.
Qed.

Lemma headers_get_set (o : Obj.t) (key value name : string) :
  Headers.same_name key name = false ->
  Headers.get (Obj.set o key value) name = Headers.get o name.
Proof.
  intros N; unfold Headers.get.
  now rewrite headers_has_set, headers_values_set.
Qed.

Section Content_type.

Context {C : Collaborators}.

(** X4: the Content-Type of the 404 answer is never set by the code's
    [contentType] property: it is the Content-Type of the CORS headers when
    they have one, and text/plain otherwise; so it is application/json only
    when the CORS headers say so. *)
Theorem not_found_content_type_comes_from_cors
    request env context st sentry st1 url crisp notion st3 :
  new_Toucan (toucan_options request env context) st = (Normal sentry, st1) ->
  clients request env st1 = (Normal (url, crisp, notion), st3) ->
  Request.method request <> "OPTIONS" ->
  is_conductor request url = false ->
  is_contact_us request url = false ->
  exists r,
    fst (fetch request env context st) = Normal r
    /\ Headers.get (Response.headers r) "Content-Type"
       = Some match Headers.get (buildResponseCorsHeaders (Request.headers request))
                                "Content-Type" with
              | Some v => v
              | None => Response.text_plain
              end
    /\ (Headers.get (Response.headers r) "Content-Type" = Some "application/json"
        <-> Headers.get (buildResponseCorsHeaders (Request.headers request))
                        "Content-Type" = Some "application/json").
Proof.
  intros H1 H2 Hm Hc Hu.
  rewrite (fetch_not_found _ _ _ _ _ _ _ _ _ _ H1 H2 Hm Hc Hu).
  exists (not_found_response request); split; [reflexivity|].
  assert (G : Headers.get (Response.headers (not_found_response request)) "Content-Type"
              = Some match Headers.get (buildResponseCorsHeaders (Request.headers request))
                                       "Content-Type" with
                     | Some v => v
                     | None => Response.text_plain
                     end).
  { destruct (Headers.has (buildResponseCorsHeaders (Request.headers request))
                          "Content-Type") eqn:Has.
    - unfold not_found_response, Response.new; simpl.
      rewrite headers_has_set, Has by reflexivity.
      rewrite headers_get_set by reflexivity.
      unfold Headers.get; rewrite Has; reflexivity.
    - rewrite (not_found_response_content_type _ Has).
      unfold Headers.get; rewrite Has; reflexivity. }
  split; [exact G|].
  rewrite G.
  destruct (Headers.get (buildResponseCorsHeaders (Request.headers request))
                        "Content-Type") as [v|].
  - reflexivity.
  - split; discriminate.
Qed.

End Content_type.

(** ** The body of the 500 answer encodes the message *)

Lemma free_of_app (stop : ascii -> bool) (a b : string) :
  Js.free_of stop (a ++ b) = Js.free_of stop a && Js.free_of stop b.
Proof.
  induction a as [|c a IH]; simpl; [reflexivity|].
  now rewrite IH, andb_assoc.
Qed.

Lemma unescape_escape_char (c : ascii) (r : string) :
  JSON_read.unescape (JSON.escape_char c ++ r)
  = option_map (String c) (JSON_read.unescape r).
Proof.
  destruct c as [b0 b1 b2 b3 b4 b5 b6 b7].
  destruct b0, b1, b2, b3, b4, b5, b6, b7; reflexivity.
Qed.

Lemma unescape_escape (s : string) :
  JSON_read.unescape (JSON.escape s) = Some s.
Proof.
  induction s as [|c s IH]; [reflexivity|].
  simpl; now rewrite unescape_escape_char, IH.
Qed.

Lemma escape_char_printable (c : ascii) :
  Js.free_of JSON_read.control (JSON.escape_char c) = true.
Proof.
  destruct c as [b0 b1 b2 b3 b4 b5 b6 b7].
  destruct b0, b1, b2, b3, b4, b5, b6, b7; reflexivity.
Qed.

Lemma escape_printable (s : string) :
  Js.free_of JSON_read.control (JSON.escape s) = true.
Proof.
  induction s as [|c s IH]; [reflexivity|].
  simpl; now rewrite free_of_app, escape_char_printable, IH.
Qed.

Lemma escape_inj (s t : string) : JSON.escape s = JSON.escape t -> s = t.
Proof.
  intros H.
  assert (E : Some s = Some t)
    by (rewrite <- (unescape_escape s), <- (unescape_escape t), H; reflexivity).
  now inversion E.
Qed.

Lemma length_append (a b : string) :
  String.length (a ++ b) = (String.length a + String.length b)%nat.
Proof. induction a as [|c a IH]; simpl; [reflexivity | now rewrite IH]. Qed.

Lemma append_cancel_r (a b c : string) : a ++ c = b ++ c -> a = b.
Proof.
  revert b; induction a as [|x a IH]; intros [|y b] H; simpl in H.
  - reflexivity.
  - apply (f_equal String.length) in H; simpl in H.
    rewrite length_append in H; lia.
  - apply (f_equal String.length) in H; simpl in H.
    rewrite length_append in H; lia.
  - inversion H; subst; f_equal; now apply IH.
Qed.

Lemma error_body_inj (m m' : string) : error_body m = error_body m' -> m = m'.
Proof.
  unfold error_body, JSON.quote, dq; simpl.
  intros H; inversion H as [E].
  apply append_cancel_r, append_cancel_r in E.
  now apply escape_inj.
Qed.

Section Error_body.

Context {C : Collaborators}.

(** X5: the body of the 500 answer to a thrown message encodes the message
    faithfully: it has no raw control character whatever the message holds,
    the message reads back from its escaped form, and different messages
    give different bodies. *)
Theorem error_body_encodes_the_message
    request env context st sentry st1 message st2 :
  new_Toucan (toucan_options request env context) st = (Normal sentry, st1) ->
  fetch_try request env st1 = (Throw (ErrorWith message), st2) ->
  exists r,
    fst (fetch request env context st) = Normal r
    /\ Response.body r = Some (error_body message)
    /\ Js.free_of JSON_read.control (error_body message) = true
    /\ JSON_read.unescape (JSON.escape message) = Some message
    /\ forall other, error_body other = error_body message -> other = message.
Proof.
  intros H1 H2.
  rewrite (fetch_guarded_throw _ _ _ _ _ _ _ _ H1 H2); simpl.
  exists (error_response (Str message)).
  split; [reflexivity|]. split; [reflexivity|]. split; [|split].
  - unfold error_body, JSON.quote, dq; simpl.
    now rewrite !free_of_app, escape_printable.
  - apply unescape_escape.
  - intros other; apply error_body_inj.
Qed.

End Error_body.

(** ** The layout of the tag pages *)

Lemma prefix_append (p r : string) : String.prefix p (p ++ r) = true.
Proof.
  induction p as [|c p IH]; simpl; [now destruct r|].
  destruct (ascii_dec c c) as [_|N]; [exact IH | now elim N].
Qed.

Lemma prefix_inv (p s : string) :
  String.prefix p s = true -> exists r, s = p ++ r.
Proof.
  revert s; induction p as [|c p IH]; intros s H.
  - exists s; reflexivity.
  - destruct s as [|d s]; simpl in H; [discriminate|].
    destruct (ascii_dec c d) as [->|_]; [|discriminate].
    destruct (IH s H) as [r ->].
    exists r; reflexivity.
Qed.

Section Tag_pages.

Variables PageMap Rest : Type.
Variable normalizePages : TagLayout.Args PageMap -> TagLayout.Normalized Rest.

(** X6: on a page under /blog/tag/ every setting of the theme context is
    the one of the page's front matter when the front matter has it;
    otherwise layout is full and sidebar, timestamp and pagination are off;
    every other setting, and everything else that [normalizePages]
    returned, is as [normalizePages] gave it. *)
Theorem tag_page_theme_context
    (pageMap : PageMap) (locale defaultLocale tag : string)
    (frontMatter : TagLayout.Settings) (key : string) :
  TagLayout.themeContext PageMap Rest normalizePages pageMap locale defaultLocale
                         ("/blog/tag/" ++ tag) frontMatter key
  = match frontMatter key with
    | Some v => Some v
    | None =>
        match TagLayout.forced key with
        | Some v => Some v
        | None =>
            TagLayout.activeThemeContext
              (normalizePages
                 (TagLayout.mkArgs pageMap locale defaultLocale ("/blog/tag/" ++ tag)))
              key
        end
    end
  /\ TagLayout.rest
       (TagLayout.memo PageMap Rest normalizePages pageMap locale defaultLocale
                       ("/blog/tag/" ++ tag))
     = TagLayout.rest
         (normalizePages
            (TagLayout.mkArgs pageMap locale defaultLocale ("/blog/tag/" ++ tag))).
Proof.
  unfold TagLayout.themeContext, TagLayout.memo.
  rewrite (prefix_append "/blog/tag/" tag).
  split; [|reflexivity].
  unfold TagLayout.spreadValues, TagLayout.empty, TagLayout.forced; simpl.
  destruct (frontMatter key); [reflexivity|].
  unfold TagLayout.assign.
  destruct (String.eqb key "pagination"); [reflexivity|].
  destruct (String.eqb key "timestamp"); [reflexivity|].
  destruct (String.eqb key "sidebar"); [reflexivity|].
  destruct (String.eqb key "layout"); [reflexivity|].
  now destruct (TagLayout.activeThemeContext _ key).
Qed.

End Tag_pages.

(** *** The further theorems at concrete inputs *)

Lemma handler_called_only_on_its_route_witness :
  Request.method (Stub.request "POST" Stub.conductor_url) = "POST"
  /\ (exists url,
         URL.new (Request.url (Stub.request "POST" Stub.conductor_url)) = Normal url
         /\ URL.pathname url = "/api/conductor").
Proof.
  destruct (handler_called_only_on_its_route (C := Stub.healthy)
              (Stub.request "POST" Stub.conductor_url) Stub.env tt
              (Stub.start Stub.healthy 0%nat)) as [Conductor _].
  destruct (Conductor
              (ConductorArgs.mk (Stub.request "POST" Stub.conductor_url)
                 (ClientOptions.mk (Some "notion-token")) (Some "conductor-db")))
    as (Method & Path & _).
  - simpl; right; right; right; left; reflexivity.
  - split; [exact Method | exact Path].
Defined.

Lemma crisp_failure_fails_every_request_witness :
  fst (fetch (C := Stub.healthy) (Stub.request "OPTIONS" Stub.conductor_url)
             Stub.env_without_crisp_token tt (Stub.start Stub.healthy 0%nat))
  = Normal (error_response (Str "Crisp token is missing"))
  /\ map callee
       (calls_of (fetch (C := Stub.healthy)
                        (Stub.request "OPTIONS" Stub.conductor_url)
                        Stub.env_without_crisp_token tt)
                 (Stub.start Stub.healthy 0%nat))
     = [Toucan; CrispClient; Collector].
Proof.
  edestruct (crisp_failure_fails_every_request (C := Stub.healthy)
               (Stub.request "OPTIONS" Stub.conductor_url)
               Stub.env_without_crisp_token tt (Stub.start Stub.healthy 0%nat))
    as (Answer & _ & Calls); [reflexivity | reflexivity | reflexivity |].
  split; [exact Answer | rewrite Calls; reflexivity].
Defined.

Lemma not_found_content_type_comes_from_cors_witness :
  exists r,
    fst (fetch (C := Stub.healthy) (Stub.request "GET" Stub.contact_us_url)
               Stub.env tt (Stub.start Stub.healthy 0%nat))
    = Normal r
    /\ Headers.get (Response.headers r) "Content-Type" = Some Response.text_plain.
Proof.
  edestruct (not_found_content_type_comes_from_cors (C := Stub.healthy)
               (Stub.request "GET" Stub.contact_us_url) Stub.env tt
               (Stub.start Stub.healthy 0%nat))
    as (r & Answer & Content_type & _);
    [reflexivity | reflexivity | discriminate | reflexivity | reflexivity |].
  exists r; split; [exact Answer | exact Content_type].
Defined.

Lemma error_body_encodes_the_message_witness :
  exists r,
    fst (fetch (C := Stub.conductor_throws (ErrorWith "Notion is down"))
               (Stub.request "POST" Stub.conductor_url) Stub.env tt
               (Stub.start (Stub.conductor_throws (ErrorWith "Notion is down")) 0%nat))
    = Normal r
    /\ Response.body r = Some (error_body "Notion is down").
Proof.
  edestruct (error_body_encodes_the_message
               (C := Stub.conductor_throws (ErrorWith "Notion is down"))
               (Stub.request "POST" Stub.conductor_url) Stub.env tt
               (Stub.start (Stub.conductor_throws (ErrorWith "Notion is down")) 0%nat))
    as (r & Answer & Body & _); [reflexivity | reflexivity |].
  exists r; split; [exact Answer | exact Body].
Defined.


(** ** The tag pages' layout in the shared object *)

Section Tag_heap.

Variables PageMap Rest : Type.
Variable normalizePages :
  TagLayout.Args PageMap -> TagHeap.Heap -> TagHeap.Normalized Rest * TagHeap.Heap.

Lemma write_same (h : TagHeap.Heap) (r : TagHeap.Ref) key value :
  TagHeap.write h r key value r = TagLayout.assign (h r) key value.
Proof. unfold TagHeap.write; now rewrite Nat.eqb_refl. Qed.

Lemma write_other (h : TagHeap.Heap) (r r' : TagHeap.Ref) key value :
  r' <> r -> TagHeap.write h r key value r' = h r'.
Proof.
  intros N; unfold TagHeap.write.
  apply Nat.eqb_neq in N; now rewrite N.
Qed.

Lemma memo_off_tag_pages
    (pageMap : PageMap) (locale defaultLocale fsPath : string) (h : TagHeap.Heap) :
  (forall tag, fsPath <> "/blog/tag/" ++ tag) ->
  TagHeap.memo PageMap Rest normalizePages pageMap locale defaultLocale fsPath h
  = normalizePages (TagLayout.mkArgs pageMap locale defaultLocale fsPath) h.
Proof.
  intros N.
  assert (P : String.prefix "/blog/tag/" fsPath = false).
  { destruct (String.prefix "/blog/tag/" fsPath) eqn:P; [|reflexivity].
    destruct (prefix_inv _ _ P) as [tag E]; now elim (N tag). }
  unfold TagHeap.memo; rewrite P.
  now destruct (normalizePages _ h).
Qed.

Lemma memo_on_tag_pages
    (pageMap : PageMap) (locale defaultLocale tag : string)
    (h h0 : TagHeap.Heap) (res : TagHeap.Normalized Rest) :
  normalizePages
    (TagLayout.mkArgs pageMap locale defaultLocale ("/blog/tag/" ++ tag)) h
  = (res, h0) ->
  exists h',
    TagHeap.memo PageMap Rest normalizePages pageMap locale defaultLocale
                 ("/blog/tag/" ++ tag) h
    = (res, h')
    /\ (forall key,
          h' (TagHeap.activeThemeContext res) key
          = match TagLayout.forced key with
            | Some v => Some v
            | None => h0 (TagHeap.activeThemeContext res) key
            end)
    /\ (forall r, r <> TagHeap.activeThemeContext res -> h' r = h0 r).
Proof.
  intros N.
  unfold TagHeap.memo; rewrite N, (prefix_append "/blog/tag/" tag).
  eexists; split; [reflexivity|]. split.
  - intros key.
    rewrite !write_same.
    unfold TagLayout.assign, TagLayout.forced.
    destruct (String.eqb key "pagination"); [reflexivity|].
    destruct (String.eqb key "timestamp"); [reflexivity|].
    destruct (String.eqb key "sidebar"); [reflexivity|].
    destruct (String.eqb key "layout"); reflexivity.
  - intros r R.
    now rewrite !write_other.
Qed.

(** On the tag page itself the assignments in place give the theme context
    that the functional reading [TagLayout.memo] gives. *)
Lemma memo_in_place_agrees
    (pageMap : PageMap) (locale defaultLocale tag : string)
    (h h0 h' : TagHeap.Heap) (res : TagHeap.Normalized Rest) (key : string) :
  normalizePages
    (TagLayout.mkArgs pageMap locale defaultLocale ("/blog/tag/" ++ tag)) h
  = (res, h0) ->
  TagHeap.memo PageMap Rest normalizePages pageMap locale defaultLocale
               ("/blog/tag/" ++ tag) h
  = (res, h') ->
  h' (TagHeap.activeThemeContext res) key
  = TagLayout.activeThemeContext
      (TagLayout.memo PageMap Rest
         (fun _ => TagLayout.mkNormalized
                     (h0 (TagHeap.activeThemeContext res)) (TagHeap.rest res))
         pageMap locale defaultLocale ("/blog/tag/" ++ tag))
      key.
Proof.
  intros N M.
  destruct (memo_on_tag_pages pageMap locale defaultLocale tag h h0 res N)
    as (h1 & M1 & Forced & _).
  rewrite M in M1; inversion M1; subst h1.
  rewrite Forced.
  unfold TagLayout.memo; rewrite (prefix_append "/blog/tag/" tag); simpl.
  unfold TagLayout.assign, TagLayout.forced.
  destruct (String.eqb key "pagination"); [reflexivity|].
  destruct (String.eqb key "timestamp"); [reflexivity|].
  destruct (String.eqb key "sidebar"); [reflexivity|].
  destruct (String.eqb key "layout"); reflexivity.
Qed.

(** X7: for a path that is not /blog/tag/ followed by something, /blog/tag
    itself included, the patch writes nothing: the memoised function
    returns what [normalizePages] returns and leaves every object as
    [normalizePages] left it. *)
Theorem other_pages_write_nothing
    (pageMap : PageMap) (locale defaultLocale fsPath : string) (h : TagHeap.Heap) :
  (forall tag, fsPath <> "/blog/tag/" ++ tag) ->
  TagHeap.memo PageMap Rest normalizePages pageMap locale defaultLocale fsPath h
  = normalizePages (TagLayout.mkArgs pageMap locale defaultLocale fsPath) h.
Proof. apply memo_off_tag_pages. Qed.

(** X8: on a tag page the memoised function returns the result of
    [normalizePages] and has written into the one object that this result
    refers to: there layout is full and sidebar, timestamp and pagination
    are off, whatever they were, every other setting is as it was, and no
    other object of the heap is touched. *)
Theorem tag_page_writes_into_the_returned_object
    (pageMap : PageMap) (locale defaultLocale tag : string)
    (h h0 : TagHeap.Heap) (res : TagHeap.Normalized Rest) :
  normalizePages
    (TagLayout.mkArgs pageMap locale defaultLocale ("/blog/tag/" ++ tag)) h
  = (res, h0) ->
  exists h',
    TagHeap.memo PageMap Rest normalizePages pageMap locale defaultLocale
                 ("/blog/tag/" ++ tag) h
    = (res, h')
    /\ (forall key,
          h' (TagHeap.activeThemeContext res) key
          = match TagLayout.forced key with
            | Some v => Some v
            | None => h0 (TagHeap.activeThemeContext res) key
            end)
    /\ (forall r, r <> TagHeap.activeThemeContext res -> h' r = h0 r).
Proof. apply memo_on_tag_pages. Qed.

(** X9: the forced settings outlive the tag page.  When a page that is not
    a tag page is rendered after a tag page and [normalizePages] hands out
    for it the same object, as it left it, the theme context of that page
    has layout full and sidebar, timestamp and pagination off as well,
    unless its front matter sets them. *)
Theorem tag_layout_leaks_to_later_pages
    (pageMap : PageMap) (locale defaultLocale tag fsPath : string)
    (h h' h2 : TagHeap.Heap) (res res2 : TagHeap.Normalized Rest) :
  TagHeap.memo PageMap Rest normalizePages pageMap locale defaultLocale
               ("/blog/tag/" ++ tag) h
  = (res, h') ->
  (forall tag', fsPath <> "/blog/tag/" ++ tag') ->
  normalizePages (TagLayout.mkArgs pageMap locale defaultLocale fsPath) h'
  = (res2, h2) ->
  TagHeap.activeThemeContext res2 = TagHeap.activeThemeContext res ->
  h2 (TagHeap.activeThemeContext res) = h' (TagHeap.activeThemeContext res) ->
  forall frontMatter key v,
    frontMatter key = None ->
    TagLayout.forced key = Some v ->
    fst (TagHeap.themeContext PageMap Rest normalizePages pageMap locale
                              defaultLocale fsPath frontMatter h') key
    = Some v.
Proof.
  intros M N P2 Same Kept frontMatter key v F V.
  destruct (normalizePages
              (TagLayout.mkArgs pageMap locale defaultLocale ("/blog/tag/" ++ tag)) h)
    as [res0 h0] eqn:P1.
  destruct (memo_on_tag_pages
              pageMap locale defaultLocale tag h h0 res0 P1)
    as (h1 & M1 & Forced & _).
  rewrite M in M1; inversion M1; subst res0 h1.
  unfold TagHeap.themeContext.
  rewrite (memo_off_tag_pages pageMap locale defaultLocale fsPath h' N), P2.
  simpl; unfold TagLayout.spreadValues, TagLayout.empty.
  rewrite F, Same, Kept, Forced, V; reflexivity.
Qed.

End Tag_heap.

Lemma other_pages_write_nothing_witness :
  TagHeap.memo unit unit TagHeap.shared_default tt "en" "en" "/blog/tag"
               (fun _ => TagLayout.empty)
  = (TagHeap.mkNormalized 0%nat tt, fun _ => TagLayout.empty).
Proof.
  refine (other_pages_write_nothing unit unit TagHeap.shared_default
            tt "en" "en" "/blog/tag" (fun _ => TagLayout.empty) _).
  intros tag H; discriminate H.
Defined.

Lemma tag_page_writes_into_the_returned_object_witness :
  exists h',
    TagHeap.memo unit unit TagHeap.shared_default tt "en" "en" "/blog/tag/rocq"
                 (fun _ => TagLayout.empty)
    = (TagHeap.mkNormalized 0%nat tt, h')
    /\ h' 0%nat "layout" = Some (TagLayout.Name "full")
    /\ h' 1%nat = TagLayout.empty.
Proof.
  destruct (tag_page_writes_into_the_returned_object unit unit
              TagHeap.shared_default tt "en" "en" "rocq"
              (fun _ => TagLayout.empty) (fun _ => TagLayout.empty)
              (TagHeap.mkNormalized 0%nat tt) eq_refl)
    as (h' & Memo & Forced & Frame).
  exists h'; split; [exact Memo|]. split.
  - exact (Forced "layout").
  - apply Frame; discriminate.
Defined.

Lemma tag_layout_leaks_to_later_pages_witness :
  fst (TagHeap.themeContext unit unit TagHeap.shared_default tt "en" "en" "/blog"
         TagLayout.empty
         (snd (TagHeap.memo unit unit TagHeap.shared_default tt "en" "en"
                            "/blog/tag/rocq" (fun _ => TagLayout.empty))))
      "layout"
  = Some (TagLayout.Name "full").
Proof.
  eapply (tag_layout_leaks_to_later_pages unit unit TagHeap.shared_default
            tt "en" "en" "rocq" "/blog" (fun _ => TagLayout.empty));
    try reflexivity.
  intros tag H; discriminate H.
Defined.
